(** * Talvaar image optimizer: the optimization decision core

    A shallow embedding of [resizer_module/utils.py], [resizer_module/analysis.py]
    and [resizer_module/optimizer.py], and the properties of the path
    classifier, the alpha classifier, the candidate generator, the variant
    encoder and the optimization race.

    Python strings are [string] (byte strings), Python integers are [Z],
    tuples are products, [Optional] is [option], and an exception that
    leaves a function is the outer [None] of an [option] result. *)

From Stdlib Require Import ZArith QArith Bool List Lia PeanoNat Permutation.
From Stdlib Require Import Strings.String Strings.Ascii Strings.Byte.
From Stdlib Require Import Numbers.DecimalString.
Import ListNotations.

Local Open Scope string_scope.
Local Open Scope list_scope.

(* ------------------------------------------------------------------ *)
(** ** Python string primitives used by the sources *)

Module PyStr.

(** [str.lower] and [str.upper] on one character of a UTF-8 string.  Only
    ASCII letters change and every other byte is kept.  The tests the
    sources make on the result come out as in Python: no non-ASCII
    character lower-cases to exactly a letter of a path keyword, or
    upper-cases to exactly a letter of a container format name. *)
Definition lower_char (c : ascii) : ascii :=
  let n := nat_of_ascii c in
  if (65 <=? n)%nat && (n <=? 90)%nat then ascii_of_nat (n + 32) else c.

Definition upper_char (c : ascii) : ascii :=
  let n := nat_of_ascii c in
  if (97 <=? n)%nat && (n <=? 122)%nat then ascii_of_nat (n - 32) else c.

Fixpoint map_chars (f : ascii -> ascii) (s : string) : string :=
  match s with
  | EmptyString => EmptyString
  | String c rest => String (f c) (map_chars f rest)
  end.

Definition lower (s : string) : string := map_chars lower_char s.
Definition upper (s : string) : string := map_chars upper_char s.

(** [s.replace(old, new)] for one-character [old] and [new]. *)
Definition replace (old new : ascii) (s : string) : string :=
  map_chars (fun c => if Ascii.eqb c old then new else c) s.

(** Splitting at every character that satisfies [is_sep]; as Python's
    [str.split(sep)] the result is never empty and keeps empty segments. *)
Fixpoint split_on (is_sep : ascii -> bool) (s : string) : list string :=
  match s with
  | EmptyString => [EmptyString]
  | String c rest =>
      if is_sep c then EmptyString :: split_on is_sep rest
      else match split_on is_sep rest with
           | seg :: segs => String c seg :: segs
           | [] => [String c EmptyString]
           end
  end.

(** [s.split(sep)] for a one-character separator. *)
Definition split (sep : ascii) (s : string) : list string :=
  split_on (Ascii.eqb sep) s.

(** [str(n)] for an integer, as an f-string prints it. *)
Definition str_of_int (n : Z) : string :=
  NilEmpty.string_of_int (Z.to_int n).

(** [needle in haystack] for strings. *)
Fixpoint contains (needle haystack : string) : bool :=
  String.prefix needle haystack ||
  match haystack with
  | EmptyString => false
  | String _ rest => contains needle rest
  end.

(** [x in xs] for a collection of strings. *)
Definition mem (x : string) (xs : list string) : bool :=
  existsb (String.eqb x) xs.

End PyStr.

(* ------------------------------------------------------------------ *)
(** ** resizer_module/utils.py *)

Module Utils.

Definition keywords : list string := ["ui"; "gui"; "colormap"; "font"].

(** [is_ui_texture]: lower-case, turn backslashes into slashes, split on
    slashes, and look for a segment that is a keyword. *)
Definition is_ui_texture (path : string) : bool :=
  let p := PyStr.replace "\" "/" (PyStr.lower path) in
  let parts := PyStr.split "/" p in
  existsb (fun k => PyStr.mem k keywords) parts.

(** The specification's reading of the same test: the lower-cased path is
    cut at both separators at once. *)
Definition is_path_separator (c : ascii) : bool :=
  Ascii.eqb c "/" || Ascii.eqb c "\".

Definition path_segments (path : string) : list string :=
  PyStr.split_on is_path_separator (PyStr.lower path).

End Utils.

(* ------------------------------------------------------------------ *)
(** ** Python numbers: sizes and the baseline

    A buffer size is an [int]; the baseline and the returned size are
    annotated [float] and may be [float('inf')].  Python compares an [int]
    with a [float] exactly, so a finite float is kept as the rational it
    denotes. *)

Inductive PyFloat : Type :=
| FFinite (q : Q)
| FInf
| FNegInf
| FNaN.

Inductive PyNum : Type :=
| PInt (n : Z)
| PFloat (f : PyFloat).

(** [n < x] for an integer [n]. *)
Definition int_lt (n : Z) (x : PyNum) : bool :=
  match x with
  | PInt m => (n <? m)%Z
  | PFloat (FFinite q) => negb (Qle_bool q (inject_Z n))
  | PFloat FInf => true
  | PFloat FNegInf => false
  | PFloat FNaN => false
  end.

(** [float(n)]; buffer sizes are far below 2^53, where the conversion is exact. *)
Definition float_of_int (n : Z) : PyNum := PFloat (FFinite (inject_Z n)).

Definition float_inf : PyNum := PFloat FInf.

(* ------------------------------------------------------------------ *)
(** ** The imaging library

    Pixel decoding, conversion, quantization and encoding belong to the
    imaging library (Pillow), not to this repository.  The library is an
    interface; a call that raises is [None]. *)

(** A single band (mode [L]) of an image: its samples in raster order,
    none for an image without pixels. *)
Definition Band : Type := list byte.

Definition band_values (b : Band) : list nat := map Byte.to_nat b.

(** Keyword arguments of [Image.save]; an absent key is [None]. *)
Record SaveArgs : Type := {
  sa_format : string;
  sa_optimize : option bool;
  sa_compress_level : option Z;
  sa_quality : option Z
}.

(** The bytes written to a [BytesIO]. *)
Definition Buffer : Type := list byte.

Class Imaging : Type := {
  (** pixel storage of an image *)
  Raster : Type;
  (** [Image.convert]: source mode, pixels, target mode *)
  lib_convert : string -> Raster -> string -> option Raster;
  (** [Image.quantize(colors, method=2, dither=NONE)]: mode, pixels,
      number of colours *)
  lib_quantize : string -> Raster -> Z -> option Raster;
  (** [Image.getchannel('A')] of an RGBA image *)
  lib_alpha : Raster -> Band;
  (** [Image.getcolors(maxcolors)]: mode, pixels, [maxcolors].  The outer
      [None] is the [ValueError] of a mode whose colours the library cannot
      list; inside, [(count, colour)] pairs, or Python's [None] when there
      are more than [maxcolors] colours *)
  lib_getcolors :
    string -> Raster -> Z -> option (option (list (Z * list Z)));
  (** [Image.save] into a fresh [BytesIO]: the bytes written and the
      position [tell()] reports afterwards *)
  lib_save : string -> Raster -> SaveArgs -> option (Buffer * Z);
  (** The modes whose colours the library cannot list (the 16-bit
      grayscale modes [I;16] and its variants) have no alpha band: they
      are not RGBA, and converted to RGBA their alpha is 255, or 0 where
      the file declares a transparent colour. *)
  lib_getcolors_refusal :
    forall (m : string) (r : Raster) (maxcolors : Z),
      lib_getcolors m r maxcolors = None ->
      m <> "RGBA" /\
      forall rgba, lib_convert m r "RGBA" = Some rgba ->
        forall v, In v (band_values (lib_alpha rgba)) ->
                  v = 0%nat \/ v = 255%nat
}.

Section Library.
Context {L : Imaging}.

Record Image : Type := {
  img_mode : string;   (* [img.mode] *)
  img_raster : Raster
}.

(** [img.convert(m)]: the result has mode [m]. *)
Definition convert (img : Image) (m : string) : option Image :=
  option_map (Build_Image m) (lib_convert (img_mode img) (img_raster img) m).

(** [img.quantize(colors=c, method=2, dither=Image.Dither.NONE)]. *)
Definition quantize (img : Image) (c : Z) : option Image :=
  option_map (Build_Image "P")
             (lib_quantize (img_mode img) (img_raster img) c).

Definition getchannel_A (img : Image) : Band := lib_alpha (img_raster img).

Definition getcolors (img : Image) (maxcolors : Z)
  : option (option (list (Z * list Z))) :=
  lib_getcolors (img_mode img) (img_raster img) maxcolors.

Definition save (out : Image) (kwargs : SaveArgs) : option (Buffer * Z) :=
  lib_save (img_mode out) (img_raster out) kwargs.

End Library.

(** [getextrema] of a band: the smallest and the largest sample, and
    Python's [None] for a band without samples. *)
Definition getextrema (b : Band) : option (nat * nat) :=
  match b with
  | [] => None
  | x :: rest =>
      let v := Byte.to_nat x in
      Some (fold_left
              (fun acc y => (Nat.min (fst acc) y, Nat.max (snd acc) y))
              (map Byte.to_nat rest) (v, v))
  end.

(** [histogram] of a band: how often each of the 256 values occurs. *)
Definition histogram (b : Band) : list nat :=
  map (fun i => count_occ Nat.eq_dec (band_values b) i) (seq 0 256).

(** [getcolors(maxcolors)] of a band, as the library computes it for
    single-band images: [[(h[i], i) for i in range(256) if h[i]]], and
    [None] when that list is longer than [maxcolors]. *)
Definition band_getcolors (b : Band) (maxcolors : nat) : option (list (nat * nat)) :=
  let out := filter (fun e => negb (fst e =? 0)%nat)
                    (combine (histogram b) (seq 0 256)) in
  if (maxcolors <? List.length out)%nat then None else Some out.

(** Sequencing of calls that may raise. *)
Notation "x <- e ;; k" :=
  (match e with Some x => k | None => None end)
  (at level 61, e at next level, right associativity, only parsing).

(* ------------------------------------------------------------------ *)
(** ** resizer_module/analysis.py *)

Module Analysis.

(** [class ImageAnalysis]; [alpha_type] is the string the code stores. *)
Record ImageAnalysis : Type := {
  mode : string;
  alpha_type : string;
  is_ui : bool;
  has_transparency : bool;
  suggested_algorithm : string
}.

Section WithLibrary.
Context {L : Imaging}.

(** [analyze_image], lines 26-31: the alpha band of the image coerced to
    RGBA. *)
Definition alpha_channel (img : Image) : option Band :=
  temp_img <- (if negb (img_mode img =? "RGBA") then convert img "RGBA"
               else Some img) ;;
  Some (getchannel_A temp_img).

(** [analyze_image], lines 33-52: [(alpha_type, has_transparency)] from the
    alpha band.  For a band without samples [getextrema] gives Python's
    [None], and unpacking it into [min_a, max_a] raises. *)
Definition classify_alpha (alpha : Band) : option (string * bool) :=
  extrema <- getextrema alpha ;;
  let '(min_a, max_a) := extrema in
  Some (if (min_a <? 255)%nat then
          match band_getcolors alpha 257 with
          | Some ((_ :: _) as vals) =>
              if (List.length vals <=? 2)%nat then
                if forallb (fun v => (snd v =? 0)%nat || (snd v =? 255)%nat)
                           vals
                then ("binary", true)
                else ("partial", true)
              else ("partial", true)
          | _ => ("partial", true)
          end
        else ("none", false)).

(** [analyze_image], lines 56-66: the resampling hint.  The colours are
    those of the image as it came, and listing them may raise. *)
Definition suggest_algorithm (img : Image) (is_ui : bool) (alpha_type : string)
  : option string :=
  if is_ui then Some "NEAREST"
  else if alpha_type =? "binary" then Some "NEAREST"
  else
    colors <- getcolors img 257 ;;
    Some match colors with
         | Some ((_ :: _) as colors) =>
             if (List.length colors <=? 256)%nat then "NEAREST"
             else "LANCZOS"
         | _ => "LANCZOS"
         end.

Definition analyze_image (img : Image) (file_path : string)
  : option ImageAnalysis :=
  let is_ui := Utils.is_ui_texture file_path in
  alpha <- alpha_channel img ;;
  classes <- classify_alpha alpha ;;
  let '(alpha_type, has_transparency) := classes in
  suggested_algorithm <- suggest_algorithm img is_ui alpha_type ;;
  Some {| mode := img_mode img;
          alpha_type := alpha_type;
          is_ui := is_ui;
          has_transparency := has_transparency;
          suggested_algorithm := suggested_algorithm |}.

End WithLibrary.
End Analysis.

(* ------------------------------------------------------------------ *)
(** ** resizer_module/optimizer.py *)

Module Optimizer.
Import Analysis.

Definition Candidate : Type := (string * option Z)%type.

Definition generate_candidates (analysis : ImageAnalysis)
    (ignore_transparency : bool) : list Candidate :=
  let effective_alpha :=
    if ignore_transparency then "none" else alpha_type analysis in
  if effective_alpha =? "none" then
    [("RGB", None)] ++
    (if negb (is_ui analysis) then [("P", Some 256%Z); ("P", Some 128%Z)] else [])
  else if effective_alpha =? "binary" then
    [("RGBA", None)] ++
    (if negb (is_ui analysis) then [("P", Some 256%Z); ("P", Some 128%Z)] else [])
  else if effective_alpha =? "partial" then
    [("RGBA", None)]
  else [].

(** The quality the lossy containers get from a compression level. *)
Definition quality_of (compression : Z) : Z :=
  if (compression =? 0)%Z then 85%Z else Z.max 10 (100 - compression * 10).

Definition is_jpeg (fmt : string) : bool :=
  PyStr.mem (PyStr.upper fmt) ["JPG"; "JPEG"].

(** [save_candidate_buffer], "Setup Save Args". *)
Definition save_kwargs (compression : Z) (fmt : string) : SaveArgs :=
  if PyStr.upper fmt =? "PNG" then
    {| sa_format := "PNG"; sa_optimize := Some true;
       sa_compress_level := Some compression; sa_quality := None |}
  else if is_jpeg fmt then
    {| sa_format := "JPEG"; sa_optimize := Some true;
       sa_compress_level := None; sa_quality := Some (quality_of compression) |}
  else if PyStr.upper fmt =? "WEBP" then
    {| sa_format := "WEBP"; sa_optimize := None;
       sa_compress_level := None; sa_quality := Some (quality_of compression) |}
  else
    {| sa_format := fmt; sa_optimize := None;
       sa_compress_level := None; sa_quality := None |}.

Section WithLibrary.
Context {L : Imaging}.

(** [save_candidate_buffer], "Setup Image Mode" and "Handle JPEG alpha
    drop": the image handed to [save]. *)
Definition output_image (img : Image) (mode : string) (colors : option Z)
    (fmt : string) : option Image :=
  out <- (if mode =? "RGB" then convert img "RGB"
          else if mode =? "RGBA" then convert img "RGBA"
          else if mode =? "P" then
            img' <- (if negb (img_mode img =? "RGBA") then convert img "RGBA"
                     else Some img) ;;
            let c := match colors with Some c => c | None => 256%Z end in
            quantize img' c
          else None) ;;
  if is_jpeg fmt && (img_mode out =? "RGBA") then convert out "RGB"
  else Some out.

(** [save_candidate_buffer]: [Some (buffer, size)], or [None] for the
    [(None, None)] the function returns on an unknown mode and on any
    exception. *)
Definition save_candidate_buffer (img : Image) (mode : string)
    (colors : option Z) (compression : Z) (fmt : string)
  : option (Buffer * Z) :=
  let kwargs := save_kwargs compression fmt in
  out <- output_image img mode colors fmt ;;
  save out kwargs.

(** [f"{mode}-{colors}" if colors else mode]. *)
Definition candidate_label (cand : Candidate) : string :=
  match snd cand with
  | Some c => if (c =? 0)%Z then fst cand
              else (fst cand ++ "-" ++ PyStr.str_of_int c)%string
  | None => fst cand
  end.

(** The loop variables [(best_buffer, best_size, best_mode)]. *)
Definition RaceState : Type := (option Buffer * PyNum * string)%type.

(** One iteration of the race. *)
Definition race_step (img : Image) (compression : Z) (fmt : string)
    (st : RaceState) (cand : Candidate) : RaceState :=
  let '(best_buffer, best_size, best_mode) := st in
  match save_candidate_buffer img (fst cand) (snd cand) compression fmt with
  | Some (buffer, size) =>
      if int_lt size best_size
      then (Some buffer, PInt size, candidate_label cand)
      else st
  | None => st
  end.

Definition race (img : Image) (compression : Z) (fmt : string)
    (original_size : PyNum) (candidates : list Candidate) : RaceState :=
  fold_left (race_step img compression fmt) candidates
            (None, original_size, "Original").

Definition safe_mode_of (analysis : ImageAnalysis) (ignore_transparency : bool)
  : string :=
  if ignore_transparency || (alpha_type analysis =? "none") then "RGB"
  else "RGBA".

(** [smart_optimize]: [(best_buffer, best_mode, best_size)]. *)
Definition smart_optimize (img : Image) (file_path : string)
    (original_size : PyNum) (compression : Z) (fmt : string)
    (ignore_transparency : bool) : option (option Buffer * string * PyNum) :=
  analysis <- analyze_image img file_path ;;
  let candidates := generate_candidates analysis ignore_transparency in
  let '(best_buffer, best_size, best_mode) :=
    race img compression fmt original_size candidates in
  match best_buffer with
  | Some _ => Some (best_buffer, best_mode, best_size)
  | None =>
      let safe_mode := safe_mode_of analysis ignore_transparency in
      match save_candidate_buffer img safe_mode None compression fmt with
      | Some (buffer, best_size_int) =>
          Some (Some buffer, (safe_mode ++ " (Fallback)")%string,
                float_of_int best_size_int)
      | None =>
          Some (None, (safe_mode ++ " (Fallback)")%string, float_inf)
      end
  end.

End WithLibrary.
End Optimizer.

(* ------------------------------------------------------------------ *)
(** ** A raw imaging library

    A small instance of the library interface on which the model runs:
    an image is its RGBA pixels, the encoders write the samples
    uncompressed, one byte per sample (four per pixel in mode [RGBA],
    three in [RGB], one palette index in [P]), an unknown container
    format raises, the JPEG encoder refuses modes [RGBA] and [P], and
    a 16-bit grayscale image ([I;16]) can be neither quantized nor
    have its colours listed. *)

Module RawLibrary.

Definition Pixel : Type := (byte * byte * byte * byte)%type.

Definition RawRaster : Type := list Pixel.

Definition pixels (r : RawRaster) : list Pixel := r.

Definition alpha_of (p : Pixel) : byte := snd p.

Definition opaque (p : Pixel) : Pixel :=
  let '(r, g, b, _) := p in (r, g, b, xff).

(** The 16-bit grayscale mode has no alpha band. *)
Definition sixteen_bit (m : string) : bool := m =? "I;16".

Definition raw_convert (src : string) (r : RawRaster) (target : string)
  : option RawRaster :=
  if target =? "RGBA" then Some (if sixteen_bit src then map opaque r else r)
  else if target =? "RGB" then Some (map opaque r)
  else None.

Definition raw_quantize (src : string) (r : RawRaster) (colors : Z)
  : option RawRaster :=
  if negb (sixteen_bit src) && ((0 <? colors) && (colors <=? 256))%Z
  then Some r else None.

Definition raw_alpha (r : RawRaster) : Band := map alpha_of r.

Definition colour_of (p : Pixel) : list Z :=
  let '(r, g, b, a) := p in
  map (fun x => Z.of_nat (Byte.to_nat x)) [r; g; b; a].

(** The colours of a 16-bit grayscale image cannot be listed. *)
Definition raw_getcolors (src : string) (r : RawRaster) (maxcolors : Z)
  : option (option (list (Z * list Z))) :=
  if sixteen_bit src then None
  else
    let cols := map colour_of (pixels r) in
    let distinct := nodup (list_eq_dec Z.eq_dec) cols in
    Some (if (maxcolors <? Z.of_nat (List.length distinct))%Z then None
          else Some (map (fun c =>
                 (Z.of_nat (count_occ (list_eq_dec Z.eq_dec) cols c), c))
               distinct)).

Definition samples_per_pixel (m : string) : nat :=
  if m =? "RGBA" then 4 else if m =? "RGB" then 3 else 1.

Definition raw_save (m : string) (r : RawRaster) (kwargs : SaveArgs)
  : option (Buffer * Z) :=
  let f := sa_format kwargs in
  let ok :=
    (f =? "PNG") || (f =? "WEBP") ||
    ((f =? "JPEG") && negb (m =? "RGBA") && negb (m =? "P")) in
  if ok then
    let buf := repeat x00 (samples_per_pixel m * List.length (pixels r)) in
    Some (buf, Z.of_nat (List.length buf))
  else None.

(** The library interface on the raw rasters; its law holds because only
    the 16-bit grayscale mode is refused, and its conversion to RGBA sets
    every alpha to 255. *)
#[export] Instance raw_imaging : Imaging.
Proof.
  refine {| Raster := RawRaster;
            lib_convert := raw_convert;
            lib_quantize := raw_quantize;
            lib_alpha := raw_alpha;
            lib_getcolors := raw_getcolors;
            lib_save := raw_save;
            lib_getcolors_refusal := _ |}.
  intros m r maxcolors.
  unfold raw_getcolors, raw_convert. cbn [String.eqb Ascii.eqb Bool.eqb].
  destruct (sixteen_bit m) eqn:Hm; [| discriminate].
  intros _. split.
  - intros ->. discriminate Hm.
  - intros rgba [= <-] v Hv. right.
    unfold band_values, raw_alpha in Hv. rewrite !map_map in Hv.
    apply in_map_iff in Hv. destruct Hv as [[[[pr pg] pb] pa] [<- _]].
    reflexivity.
Defined.

Definition image (m : string) (p : Pixel) (ps : list Pixel) : Image :=
  {| img_mode := m; img_raster := ((p :: ps) : @Raster raw_imaging) |}.

(** Sample pixels: opaque red, fully transparent, half transparent. *)
Definition red : Pixel := (xff, x00, x00, xff).
Definition clear : Pixel := (x00, x00, x00, x00).
Definition glass : Pixel := (xff, x00, x00, x80).

End RawLibrary.

(* ------------------------------------------------------------------ *)
(** ** Vocabulary of the properties *)

(** Every character of [s] satisfies [f]. *)
Fixpoint all_chars (f : ascii -> bool) (s : string) : bool :=
  match s with
  | EmptyString => true
  | String c rest => f c && all_chars f rest
  end.

(** [sep.join(parts)] *)
Fixpoint join (sep : ascii) (parts : list string) : string :=
  match parts with
  | [] => EmptyString
  | [seg] => seg
  | seg :: more => (seg ++ String sep (join sep more))%string
  end.

(** The segments put back together, with one separator between two
    neighbours. *)
Fixpoint interleave (segs : list string) (seps : list ascii) : string :=
  match segs, seps with
  | [], _ => EmptyString
  | seg :: _, [] => seg
  | seg :: segs', c :: seps' =>
      (seg ++ String c (interleave segs' seps'))%string
  end.

(** The values [band_getcolors] lists, before the length test: the
    indices of the non-empty histogram bins, in increasing order. *)
Definition listed_values (b : Band) : list nat :=
  filter (fun i => negb (count_occ Nat.eq_dec (band_values b) i =? 0)%nat)
         (seq 0 256).

(** The set of distinct alpha values present in a band. *)
Definition distinct_values (b : Band) : list nat :=
  nodup Nat.eq_dec (band_values b).

(** The band needs cutout transparency only: at most two distinct alpha
    values, each of them 0 or 255. *)
Definition binary_values (b : Band) : Prop :=
  (List.length (distinct_values b) <= 2)%nat /\
  forall v, In v (distinct_values b) -> v = 0%nat \/ v = 255%nat.

Definition binary_valuesb (b : Band) : bool :=
  (List.length (listed_values b) <=? 2)%nat &&
  forallb (fun v => (v =? 0)%nat || (v =? 255)%nat) (listed_values b).

Section Vocabulary.
Import Analysis Optimizer.

(** The classification with its fidelity replaced. *)
Definition with_alpha_type (c : ImageAnalysis) (a : string) : ImageAnalysis :=
  {| mode := mode c; alpha_type := a; is_ui := is_ui c;
     has_transparency := has_transparency c;
     suggested_algorithm := suggested_algorithm c |}.

Definition palette_pair : list Candidate :=
  [("P", Some 256%Z); ("P", Some 128%Z)].

Context {L : Imaging}.
Variables (img : Image) (compression : Z) (fmt : string).
Variable baseline : PyNum.

(** The encode of one candidate. *)
Definition encode (c : Candidate) : option (Buffer * Z) :=
  save_candidate_buffer img (fst c) (snd c) compression fmt.

(** What the loop variables say once the candidates [done] have raced. *)
Definition race_invariant (done : list Candidate) (st : RaceState) : Prop :=
  match st with
  | (None, best_size, best_mode) =>
      best_size = baseline /\ best_mode = "Original" /\
      forall c b s, In c done -> encode c = Some (b, s) ->
                    int_lt s baseline = false
  | (Some b, best_size, best_mode) =>
      exists i c s,
        nth_error done i = Some c /\ encode c = Some (b, s) /\
        best_size = PInt s /\ best_mode = candidate_label c /\
        int_lt s baseline = true /\
        (forall c' b' s', In c' done -> encode c' = Some (b', s') ->
                          (s <= s')%Z) /\
        (forall j c' b' s', (j < i)%nat -> nth_error done j = Some c' ->
                            encode c' = Some (b', s') -> (s < s')%Z)
  end.

End Vocabulary.

Section Samples.
Import Analysis RawLibrary.

(** A cutout sprite: opaque, clear, opaque. *)
Definition sprite : Image := image "RGBA" red [clear; red].

(** A pane of glass: one half-transparent pixel among the others. *)
Definition pane : Image := image "RGBA" red [clear; glass].

Definition sprite_analysis : ImageAnalysis :=
  {| mode := "RGBA"; alpha_type := "binary"; is_ui := false;
     has_transparency := true; suggested_algorithm := "NEAREST" |}.

End Samples.

(* ------------------------------------------------------------------ *)
(** ** resizer_module/utils.py, continued: [get_unique_path] *)

Section UniquePath.

(** The file system as the function reads it, [os.path.exists], and
    [os.path.splitext]. *)
Variable path_exists : string -> bool.
Variable splitext : string -> string * string.

(** [f"{base}_{counter}{ext}"] *)
Definition numbered (base ext : string) (counter : Z) : string :=
  (base ++ "_" ++ PyStr.str_of_int counter ++ ext)%string.

(** The [while] loop, for at most [fuel] tests of [os.path.exists];
    [None] when the tests run out. *)
Fixpoint unique_loop (fuel : nat) (base ext : string) (counter : Z)
    (new_path : string) : option string :=
  match fuel with
  | O => None
  | S fuel' =>
      if path_exists new_path then
        let counter := (counter + 1)%Z in
        unique_loop fuel' base ext counter (numbered base ext counter)
      else Some new_path
  end.

Definition get_unique_path (fuel : nat) (path : string) : option string :=
  if negb (path_exists path) then Some path
  else
    let '(base, ext) := splitext path in
    let counter := 1%Z in
    unique_loop fuel base ext counter (numbered base ext counter).

End UniquePath.

(** [posixpath.splitext]: the extension starts at the last dot of the last
    path component, unless only dots come before it in that component. *)
Module PosixPath.

Fixpoint span_until (c : ascii) (l : list ascii) : list ascii * option (list ascii) :=
  match l with
  | [] => ([], None)
  | x :: rest =>
      if Ascii.eqb x c then ([], Some rest)
      else let '(before, after) := span_until c rest in (x :: before, after)
  end.

Definition splitext (p : string) : string * string :=
  let rev_p := rev (list_ascii_of_string p) in
  (* the last component, reversed *)
  let rev_name := fst (span_until "/" rev_p) in
  match span_until "." rev_name with
  | (rev_ext, Some rev_stem) =>
      if forallb (fun x => Ascii.eqb x ".") rev_stem then (p, EmptyString)
      else
        let n := S (List.length rev_ext) in
        let k := (String.length p - n)%nat in
        (String.substring 0 k p, String.substring k n p)
  | (_, None) => (p, EmptyString)
  end.

End PosixPath.

(* ------------------------------------------------------------------ *)
(** ** resizer_module/worker.py: the optimization strategy

    Step 3 of [process_single_image], lines 101-170, as a function of the
    values the steps before it computed.  Writing the buffer to
    [final_out_path] and copying the original file are returned as the
    action taken; [None] is an exception, which the enclosing [try] turns
    into the [(False, message, 0, 0)] result. *)

Module Worker.

Inductive FileAction : Type :=
| WriteBuffer (content : Buffer)
| CopyOriginal
| NoFile.

(** The file action and the [final_mode] and [new_size] of the result
    [(True, final_mode, original_size, new_size)]. *)
Record Outcome : Type := {
  action : FileAction;
  final_mode : string;
  new_size : Z
}.

(** [int(x)]: truncation for a finite float, [OverflowError] for an
    infinity and [ValueError] for a NaN. *)
Definition int_of_num (x : PyNum) : option Z :=
  match x with
  | PInt n => Some n
  | PFloat (FFinite q) => Some (Z.quot (Qnum q) (Zpos (Qden q)))
  | PFloat _ => None
  end.

Section WithLibrary.
Context {L : Imaging}.

(** The [save_config['mode'] == 'auto'] branch. *)
Definition auto_strategy (resized_img : Image) (file_path : string)
    (original_size : Z) (needs_resize : bool) (compression : Z)
    (target_fmt : string) (ignore_transparency : bool) : option Outcome :=
  let is_same_dimensions := negb needs_resize in
  let benchmark_size :=
    if is_same_dimensions && (PyStr.upper target_fmt =? "PNG")
    then float_of_int original_size else float_inf in
  r <- Optimizer.smart_optimize resized_img file_path benchmark_size
         compression target_fmt ignore_transparency ;;
  let '(best_buffer, mode_name, best_size_f) := r in
  best_size <- int_of_num best_size_f ;;
  match best_buffer with
  | Some buf =>
      if int_lt best_size benchmark_size then
        Some {| action := WriteBuffer buf; final_mode := mode_name;
                new_size := best_size |}
      else if is_same_dimensions && (PyStr.upper target_fmt =? "PNG") then
        Some {| action := CopyOriginal; final_mode := "Original (Skipped)";
                new_size := original_size |}
      else
        Some {| action := WriteBuffer buf; final_mode := mode_name;
                new_size := best_size |}
  | None =>
      if is_same_dimensions && (PyStr.upper target_fmt =? "PNG") then
        Some {| action := CopyOriginal; final_mode := "Original (Skipped)";
                new_size := original_size |}
      else
        Some {| action := NoFile; final_mode := "Error"; new_size := 0%Z |}
  end.

(** The manual modes. *)
Definition manual_strategy (resized_img : Image) (save_mode : string)
    (compression : Z) (target_fmt : string) (ignore_transparency : bool)
  : option Outcome :=
  let target_mode := "RGBA" in
  let target_mode :=
    if save_mode =? "palette" then "P"
    else if save_mode =? "rgb" then "RGB"
    else target_mode in
  let target_mode := if ignore_transparency then "RGB" else target_mode in
  match Optimizer.save_candidate_buffer resized_img target_mode
          (if target_mode =? "P" then Some 256%Z else None)
          compression target_fmt with
  | Some (buffer, size_int) =>
      Some {| action := WriteBuffer buffer; final_mode := target_mode;
              new_size := size_int |}
  | None =>
      Some {| action := NoFile; final_mode := "Error"; new_size := 0%Z |}
  end.


End WithLibrary.
End Worker.

(* ------------------------------------------------------------------ *)
(** ** resizer_module/worker.py: the resampling kernel

    Step 2 of [process_single_image], lines 66-97: [algo_map] and the
    choice of [active_algo] for an image that needs resizing. *)

Module Resize.

(** [Image.Resampling] *)
Inductive Resampling : Type :=
| NEAREST | LANCZOS | BILINEAR | BICUBIC | BOX | HAMMING.

Definition algo_map : list (string * Resampling) :=
  [("nearest", NEAREST); ("lanczos", LANCZOS); ("bilinear", BILINEAR);
   ("bicubic", BICUBIC); ("box", BOX); ("hamming", HAMMING)].

(** [algo_map.get(key, algo_map['nearest'])] *)
Definition algo_get (key : string) : Resampling :=
  match find (fun e => String.eqb (fst e) key) algo_map with
  | Some e => snd e
  | None => NEAREST
  end.

Section WithLibrary.
Context {L : Imaging}.

Definition active_algo (img : Image) (file_path : string)
    (requested_algo : string) : option Resampling :=
  if requested_algo =? "auto" then
    analysis <- Analysis.analyze_image img file_path ;;
    Some (algo_get (PyStr.lower (Analysis.suggested_algorithm analysis)))
  else
    Some (algo_get (PyStr.lower requested_algo)).

End WithLibrary.
End Resize.

(* ------------------------------------------------------------------ *)
(** ** resizer_module/cli.py: the pre-analysis tally

    [analyze_single_file] and the loop of [run_pre_analysis] that adds its
    results, in the order the workers complete, to [stats]. *)

Module Report.

(** The dictionary [analyze_single_file] returns. *)
Record FileReport : Type := {
  size : Z;
  format : option string;     (* [img.format], which may be [None] *)
  alpha_type : string;
  is_ui : bool
}.

(** [stats]; a Python dictionary is its items in insertion order. *)
Record Stats : Type := {
  formats : list (option string * Z);
  alpha_types : list (string * Z);
  ui_textures : Z;
  total_size : Z
}.

Definition initial_stats : Stats :=
  {| formats := [];
     alpha_types := [("none", 0%Z); ("binary", 0%Z); ("partial", 0%Z)];
     ui_textures := 0%Z;
     total_size := 0%Z |}.

Definition format_eqb (x y : option string) : bool :=
  match x, y with
  | Some a, Some b => String.eqb a b
  | None, None => true
  | _, _ => false
  end.

Section Dict.
Context {K : Type} (key_eqb : K -> K -> bool).

(** [d.get(k)], [None] for a missing key. *)
Fixpoint dict_get (d : list (K * Z)) (k : K) : option Z :=
  match d with
  | [] => None
  | (k', v) :: rest => if key_eqb k' k then Some v else dict_get rest k
  end.

(** [d[k] = v]: the value of a present key is replaced where it stands, a
    new key goes last. *)
Fixpoint dict_set (d : list (K * Z)) (k : K) (v : Z) : list (K * Z) :=
  match d with
  | [] => [(k, v)]
  | (k', v') :: rest =>
      if key_eqb k' k then (k', v) :: rest
      else (k', v') :: dict_set rest k v
  end.

End Dict.

(** The body of the loop for one completed future: [None] is the
    [KeyError] of [stats["alpha_types"][...] += 1] on a missing key. *)
Definition tally (stats : Stats) (res : option FileReport) : option Stats :=
  match res with
  | None => Some stats
  | Some r =>
      let total := (total_size stats + size r)%Z in
      let fmt := format r in
      let fmts :=
        dict_set format_eqb (formats stats) fmt
          (match dict_get format_eqb (formats stats) fmt with
           | Some n => n | None => 0%Z end + 1)%Z in
      n <- dict_get String.eqb (alpha_types stats) (alpha_type r) ;;
      let alphas :=
        dict_set String.eqb (alpha_types stats) (alpha_type r) (n + 1)%Z in
      Some {| formats := fmts;
              alpha_types := alphas;
              ui_textures :=
                if is_ui r then (ui_textures stats + 1)%Z
                else ui_textures stats;
              total_size := total |}
  end.

Fixpoint tally_all (stats : Stats) (results : list (option FileReport))
  : option Stats :=
  match results with
  | [] => Some stats
  | res :: rest => stats' <- tally stats res ;; tally_all stats' rest
  end.

Section WithLibrary.
Context {L : Imaging}.

(** [analyze_single_file]: [file] is the size, the format and the image
    that [os.path.getsize] and [Image.open] give, or [None] when one of
    them raises; any exception gives [None]. *)
Definition analyze_single_file (file : option (Z * option string * Image))
    (path : string) : option FileReport :=
  f <- file ;;
  let '(size, fmt, img) := f in
  analysis <- Analysis.analyze_image img path ;;
  Some {| size := size; format := fmt;
          alpha_type := Analysis.alpha_type analysis;
          is_ui := Analysis.is_ui analysis |}.

End WithLibrary.
End Report.

(** How many of the reports satisfy a test, and the sum of their sizes. *)
Definition count_reports (p : Report.FileReport -> bool)
    (results : list (option Report.FileReport)) : Z :=
  Z.of_nat (List.length
              (filter (fun res => match res with
                                  | Some r => p r | None => false end)
                      results)).

(** The sum of the values of a dictionary. *)
Definition dict_total {K : Type} (d : list (K * Z)) : Z :=
  fold_right (fun e acc => (snd e + acc)%Z) 0%Z d.

Definition sum_sizes (results : list (option Report.FileReport)) : Z :=
  fold_right (fun res acc => match res with
                             | Some r => (Report.size r + acc)%Z
                             | None => acc end) 0%Z results.

(** Samples for the pipeline around the core. *)

(** A directory in which [out/a.png] and [out/a_1.png] are taken. *)
Definition sample_files (p : string) : bool :=
  PyStr.mem p ["out/a.png"; "out/a_1.png"].

(** Two analysed files. *)
Definition report_png : Report.FileReport :=
  {| Report.size := 120%Z; Report.format := Some "PNG";
     Report.alpha_type := "binary"; Report.is_ui := false |}.

Definition report_tga : Report.FileReport :=
  {| Report.size := 300%Z; Report.format := None;
     Report.alpha_type := "none"; Report.is_ui := true |}.

(* ================================================================== *)
(** * Properties *)

(* ------------------------------------------------------------------ *)
(** ** Strings and the path classifier *)

Section PathClassifier.

Lemma mem_In (x : string) (xs : list string) :
  PyStr.mem x xs = true <-> In x xs.
Proof.
  unfold PyStr.mem. rewrite existsb_exists. split.
  - intros [y [Hy Heq]]. apply String.eqb_eq in Heq. now subst.
  - intros Hx. exists x. split; [assumption | apply String.eqb_refl].
Qed.

Lemma split_on_nonempty (p : ascii -> bool) (s : string) :
  PyStr.split_on p s <> [].
Proof.
  destruct s as [| c rest]; simpl; [discriminate |].
  destruct (p c); [discriminate |].
  destruct (PyStr.split_on p rest); discriminate.
Qed.

(** Turning backslashes into slashes and cutting at slashes is cutting at
    both separators. *)
Lemma split_replace (s : string) :
  PyStr.split "/" (PyStr.replace "\" "/" s)
  = PyStr.split_on Utils.is_path_separator s.
Proof.
  unfold PyStr.split, PyStr.replace.
  induction s as [| c rest IH]; [reflexivity |].
  cbn [PyStr.split_on PyStr.map_chars]. rewrite IH.
  assert (Hsep : Ascii.eqb "/" (if Ascii.eqb c "\" then "/"%char else c)
                 = Utils.is_path_separator c).
  { unfold Utils.is_path_separator.
    destruct (Ascii.eqb c "\"); [now rewrite orb_true_r |].
    now rewrite orb_false_r, Ascii.eqb_sym. }
  rewrite Hsep.
  destruct (Utils.is_path_separator c); [reflexivity |].
  destruct (Ascii.eqb c "\") eqn:Hback; [| reflexivity].
  apply Ascii.eqb_eq in Hback. subst c. discriminate Hsep.
Qed.

(** No segment contains a separator. *)
Lemma split_on_no_separator (p : ascii -> bool) (s seg : string) :
  In seg (PyStr.split_on p s) -> all_chars (fun c => negb (p c)) seg = true.
Proof.
  revert seg. induction s as [| c rest IH]; simpl; intros seg Hin.
  - destruct Hin as [<- | []]. reflexivity.
  - destruct (p c) eqn:Hc.
    + destruct Hin as [<- | Hin]; [reflexivity | now apply IH].
    + destruct (PyStr.split_on p rest) as [| seg0 segs] eqn:Hs.
      * destruct Hin as [<- | []]. simpl. now rewrite Hc.
      * destruct Hin as [<- | Hin].
        -- simpl. rewrite Hc. simpl. apply IH. now left.
        -- apply IH. now right.
Qed.

(** Joining the segments with the separator gives the string back. *)
Lemma join_split (sep : ascii) (s : string) :
  join sep (PyStr.split sep s) = s.
Proof.
  unfold PyStr.split.
  induction s as [| c rest IH]; [reflexivity |].
  cbn [PyStr.split_on].
  pose proof (split_on_nonempty (Ascii.eqb sep) rest) as Hne.
  destruct (Ascii.eqb sep c) eqn:Hc.
  - apply Ascii.eqb_eq in Hc. subst c.
    destruct (PyStr.split_on (Ascii.eqb sep) rest) as [| seg0 segs];
      [congruence |].
    cbn [join]. simpl. now rewrite <- IH.
  - destruct (PyStr.split_on (Ascii.eqb sep) rest) as [| seg0 segs];
      [congruence |].
    destruct segs as [| seg1 segs]; simpl in *; now rewrite <- IH.
Qed.

(** Cutting loses nothing: the segments, with the separators that were
    between them, are the string. *)
Lemma split_on_interleave (p : ascii -> bool) (s : string) :
  exists seps,
    forallb p seps = true /\
    S (List.length seps) = List.length (PyStr.split_on p s) /\
    interleave (PyStr.split_on p s) seps = s.
Proof.
  induction s as [| c rest [seps [Hp [Hlen Hcat]]]].
  - exists []. repeat split.
  - cbn [PyStr.split_on]. destruct (p c) eqn:Hc.
    + exists (c :: seps). cbn [forallb List.length interleave].
      rewrite Hc, Hp, <- Hlen, Hcat. repeat split.
    + destruct (PyStr.split_on p rest) as [| seg0 segs];
        [discriminate Hlen |].
      exists seps. split; [exact Hp |]. split; [exact Hlen |].
      destruct seps as [| c' seps]; cbn [interleave] in *;
        simpl; now rewrite Hcat.
Qed.

Lemma is_ui_texture_segments (path : string) :
  Utils.is_ui_texture path
  = existsb (fun k => PyStr.mem k Utils.keywords) (Utils.path_segments path).
Proof.
  unfold Utils.is_ui_texture, Utils.path_segments.
  now rewrite split_replace.
Qed.

(** C6.  [is_ui_texture] is true exactly when some whole segment of the
    lower-cased path, cut at both ['/'] and ['\'], is one of the keywords
    [ui], [gui], [colormap], [font]; a segment that only contains a keyword
    ([build.png], [guide]) does not match. *)
Theorem is_ui_texture_whole_segment :
  (forall path : string,
      Utils.is_ui_texture path = true <->
      exists seg, In seg (Utils.path_segments path) /\ In seg Utils.keywords)
  /\ Utils.is_ui_texture "assets/build/build.png" = false
  /\ Utils.is_ui_texture "docs\guide\Guide.png" = false
  /\ Utils.is_ui_texture "textures\GUI/guide.png" = true.
Proof.
  split; [| repeat split; reflexivity].
  intros path. rewrite is_ui_texture_segments, existsb_exists.
  split; intros [seg [Hseg Hkw]]; exists seg; split; try assumption;
    now apply mem_In.
Qed.

End PathClassifier.

(* ------------------------------------------------------------------ *)
(** ** The candidate generator *)

Section CandidateGenerator.
Import Analysis Optimizer.

(** C2.  With [ignore_transparency] false the generator returns the rows of
    the rule table, in that order: [none] gives RGB, then P-256 and P-128
    unless the image is a UI asset; [binary] gives RGBA, then P-256 and
    P-128 unless UI; [partial] gives RGBA alone whatever the UI flag. *)
Theorem generate_candidates_rule_table
    (m : string) (ht : bool) (alg : string) :
  let cls a ui :=
    {| mode := m; alpha_type := a; is_ui := ui;
       has_transparency := ht; suggested_algorithm := alg |} in
  generate_candidates (cls "none" false) false
    = [("RGB", None); ("P", Some 256%Z); ("P", Some 128%Z)]
  /\ generate_candidates (cls "none" true) false = [("RGB", None)]
  /\ generate_candidates (cls "binary" false) false
    = [("RGBA", None); ("P", Some 256%Z); ("P", Some 128%Z)]
  /\ generate_candidates (cls "binary" true) false = [("RGBA", None)]
  /\ (forall ui, generate_candidates (cls "partial" ui) false
                 = [("RGBA", None)]).
Proof.
  cbv zeta. repeat split; reflexivity.
Qed.

(** C5.  With the flag set the generator answers as for the same
    classification with fidelity [none], whatever fidelity the
    classification carries. *)
Theorem generate_candidates_ignore_transparency (c : ImageAnalysis) :
  generate_candidates c true
  = generate_candidates (with_alpha_type c "none") false
  /\ forall fidelity : string,
       generate_candidates (with_alpha_type c fidelity) true
       = generate_candidates c true.
Proof.
  split.
  - unfold generate_candidates. reflexivity.
  - intros fidelity. unfold generate_candidates. reflexivity.
Qed.

Lemma generate_candidates_cases (c : ImageAnalysis) (ign : bool) :
  In (alpha_type c) ["none"; "binary"; "partial"] ->
  exists m, (m = "RGB" \/ m = "RGBA") /\
    (generate_candidates c ign = [(m, None)] \/
     generate_candidates c ign = (m, None) :: palette_pair).
Proof.
  intros Hin. unfold generate_candidates.
  destruct ign; cbn [String.eqb].
  - exists "RGB". split; [now left |]. simpl.
    destruct (is_ui c); simpl; [now left | now right].
  - destruct Hin as [H | [H | [H | []]]]; rewrite <- H; simpl.
    + exists "RGB". split; [now left |].
      destruct (is_ui c); simpl; [now left | now right].
    + exists "RGBA". split; [now right |].
      destruct (is_ui c); simpl; [now left | now right].
    + exists "RGBA". split; [now right |]. now left.
Qed.

(** C9.  For a fidelity among [none], [binary], [partial] and either value
    of the flag, the generator returns between one and three candidates and
    the first is a direct format, RGB or RGBA, with no palette size. *)
Theorem generate_candidates_direct_first (c : ImageAnalysis) (ign : bool) :
  In (alpha_type c) ["none"; "binary"; "partial"] ->
  (1 <= List.length (generate_candidates c ign) <= 3)%nat /\
  exists m rest,
    generate_candidates c ign = (m, None) :: rest /\
    (m = "RGB" \/ m = "RGBA").
Proof.
  intros Hin.
  destruct (generate_candidates_cases c ign Hin) as [m [Hm [-> | ->]]].
  - split; [simpl; lia |]. now exists m, [].
  - split; [simpl; lia |]. now exists m, palette_pair.
Qed.

Lemma generate_candidates_direct_first_witness :
  let c := {| mode := "RGBA"; alpha_type := "binary"; is_ui := false;
              has_transparency := true; suggested_algorithm := "NEAREST" |} in
  In (alpha_type c) ["none"; "binary"; "partial"] /\
  ((1 <= List.length (generate_candidates c false) <= 3)%nat /\
   exists m rest,
     generate_candidates c false = (m, None) :: rest /\
     (m = "RGB" \/ m = "RGBA")).
Proof.
  cbv zeta.
  assert (Hin : In "binary" ["none"; "binary"; "partial"])
    by (right; left; reflexivity).
  split; [exact Hin |].
  exact (generate_candidates_direct_first
           {| mode := "RGBA"; alpha_type := "binary"; is_ui := false;
              has_transparency := true; suggested_algorithm := "NEAREST" |}
           false Hin).
Defined.

End CandidateGenerator.

(* ------------------------------------------------------------------ *)
(** ** Bands: extrema and colour lists *)

Section Bands.

Lemma band_values_bounded (b : Band) (v : nat) :
  In v (band_values b) -> (v <= 255)%nat.
Proof.
  unfold band_values. rewrite in_map_iff.
  intros [x [<- _]]. apply Byte.to_nat_bounded.
Qed.

Lemma fold_extrema_min (l : list nat) (lo hi bound : nat) :
  (fst (fold_left (fun acc x => (Nat.min (fst acc) x, Nat.max (snd acc) x))
                  l (lo, hi)) < bound)%nat
  <-> (lo < bound)%nat \/ exists x, In x l /\ (x < bound)%nat.
Proof.
  revert lo hi. induction l as [| y l IH]; intros lo hi; simpl.
  - split; [now left | intros [H | [x [[] _]]]; exact H].
  - rewrite IH, Nat.min_lt_iff. split.
    + intros [[H | H] | [x [Hx Hlt]]].
      * now left.
      * right. exists y. split; [now left | exact H].
      * right. exists x. split; [now right | exact Hlt].
    + intros [H | [x [[<- | Hx] Hlt]]].
      * left. now left.
      * left. now right.
      * right. now exists x.
Qed.

(** The minimum reported by [getextrema] is below a bound exactly when some
    sample is; there are no extrema exactly for a band without samples. *)
Lemma getextrema_min_lt (b : Band) (lo hi bound : nat) :
  getextrema b = Some (lo, hi) ->
  ((lo < bound)%nat
   <-> exists v, In v (band_values b) /\ (v < bound)%nat).
Proof.
  destruct b as [| x rest]; [discriminate |].
  unfold getextrema, band_values. intros [= Hfold].
  assert (Hlo : lo = fst (fold_left
                  (fun acc y => (Nat.min (fst acc) y, Nat.max (snd acc) y))
                  (map Byte.to_nat rest) (Byte.to_nat x, Byte.to_nat x)))
    by now rewrite Hfold.
  rewrite Hlo, fold_extrema_min. cbn [map]. split.
  - intros [H | [y [Hy Hlt]]].
    + exists (Byte.to_nat x). split; [now left | exact H].
    + exists y. split; [now right | exact Hlt].
  - intros [v [[<- | Hv] Hlt]]; [now left | right; now exists v].
Qed.

Lemma getextrema_some (b : Band) :
  band_values b <> [] -> exists lo hi, getextrema b = Some (lo, hi).
Proof.
  destruct b as [| x rest]; [intros H; now contradiction H |].
  intros _. unfold getextrema.
  destruct (fold_left _ _ _) as [lo hi]. now exists lo, hi.
Qed.

Lemma getextrema_none (b : Band) :
  getextrema b = None <-> band_values b = [].
Proof.
  destruct b as [| x rest]; simpl; split; try reflexivity; discriminate.
Qed.

Lemma snd_filter_combine {A : Type} (g : nat -> A) (f : A * nat -> bool)
    (l : list nat) :
  map snd (filter f (combine (map g l) l))
  = filter (fun i => f (g i, i)) l.
Proof.
  induction l as [| i l IH]; simpl; [reflexivity |].
  destruct (f (g i, i)); simpl; now rewrite IH.
Qed.

Lemma listed_values_In (b : Band) (v : nat) :
  In v (listed_values b) <-> In v (band_values b).
Proof.
  unfold listed_values. rewrite filter_In, in_seq, negb_true_iff, Nat.eqb_neq.
  split.
  - intros [_ H]. apply (count_occ_In Nat.eq_dec). lia.
  - intros H. pose proof (band_values_bounded b v H).
    apply (count_occ_In Nat.eq_dec) in H. lia.
Qed.

Lemma listed_values_NoDup (b : Band) : NoDup (listed_values b).
Proof. apply NoDup_filter, seq_NoDup. Qed.

Lemma listed_values_length (b : Band) :
  List.length (listed_values b) = List.length (distinct_values b).
Proof.
  apply Nat.le_antisymm; apply NoDup_incl_length.
  - apply listed_values_NoDup.
  - intros v Hv. apply nodup_In. exact (proj1 (listed_values_In b v) Hv).
  - apply NoDup_nodup.
  - intros v Hv. apply (proj2 (listed_values_In b v)).
    exact (proj1 (nodup_In Nat.eq_dec _ v) Hv).
Qed.

(** With [maxcolors = 257] the colour list of a band is never Python's
    [None]: there are at most 256 values. *)
Lemma band_getcolors_257 (b : Band) :
  exists vals,
    band_getcolors b 257 = Some vals /\ map snd vals = listed_values b.
Proof.
  unfold band_getcolors, histogram.
  set (out := filter _ _).
  assert (Hsnd : map snd out = listed_values b).
  { exact (snd_filter_combine
             (fun i => count_occ Nat.eq_dec (band_values b) i)
             (fun e => negb (fst e =? 0)%nat) (seq 0 256)). }
  assert (Hlen : (List.length out <= 256)%nat).
  { rewrite <- (length_map snd), Hsnd. unfold listed_values.
    etransitivity; [apply filter_length_le |]. now rewrite length_seq. }
  exists out. split; [| exact Hsnd].
  destruct (257 <? List.length out)%nat eqn:Hcmp; [| reflexivity].
  apply Nat.ltb_lt in Hcmp. lia.
Qed.

End Bands.

(* ------------------------------------------------------------------ *)
(** ** The alpha classifier *)

Section AlphaClassifier.
Import Analysis.
Context {L : Imaging}.

Lemma binary_valuesb_spec (b : Band) :
  binary_valuesb b = true <-> binary_values b.
Proof.
  unfold binary_valuesb, binary_values.
  rewrite andb_true_iff, Nat.leb_le, forallb_forall, listed_values_length.
  split; intros [Hlen Hall]; (split; [exact Hlen |]); intros v Hv.
  - apply nodup_In, listed_values_In, Hall in Hv.
    apply orb_true_iff in Hv. now rewrite !Nat.eqb_eq in Hv.
  - apply listed_values_In, (nodup_In Nat.eq_dec), Hall in Hv.
    apply orb_true_iff. now rewrite !Nat.eqb_eq.
Qed.

Lemma forallb_snd {A : Type} (p : nat -> bool) (l : list (A * nat)) :
  forallb (fun e => p (snd e)) l = forallb p (map snd l).
Proof. induction l as [| e l IH]; simpl; [reflexivity | now rewrite IH]. Qed.

(** A band with samples, none below 255, is classified [none]. *)
Lemma classify_alpha_opaque (b : Band) :
  band_values b <> [] ->
  (forall v, In v (band_values b) -> v = 255%nat) ->
  classify_alpha b = Some ("none", false).
Proof.
  intros Hne Hall. unfold classify_alpha.
  destruct (getextrema_some b Hne) as [min_a [max_a Hext]]. rewrite Hext.
  destruct (min_a <? 255)%nat eqn:Hmin; [| reflexivity].
  apply Nat.ltb_lt in Hmin.
  apply (getextrema_min_lt b _ _ 255 Hext) in Hmin.
  destruct Hmin as [v [Hv Hlt]]. apply Hall in Hv. lia.
Qed.

(** A band with a sample below 255 is classified [binary] or [partial]. *)
Lemma classify_alpha_transparent (b : Band) :
  (exists v, In v (band_values b) /\ (v < 255)%nat) ->
  classify_alpha b
  = Some (if binary_valuesb b then "binary" else "partial", true).
Proof.
  intros Hex. unfold classify_alpha.
  assert (Hne : band_values b <> []).
  { destruct Hex as [v [Hv _]]. intros He. now rewrite He in Hv. }
  destruct (getextrema_some b Hne) as [min_a [max_a Hext]]. rewrite Hext.
  assert (Hlt : (min_a < 255)%nat)
    by exact (proj2 (getextrema_min_lt b _ _ 255 Hext) Hex).
  apply Nat.ltb_lt in Hlt. rewrite Hlt.
  destruct (band_getcolors_257 b) as [vals [-> Hsnd]].
  unfold binary_valuesb. rewrite <- Hsnd, length_map, <- forallb_snd.
  destruct vals as [| e vals].
  - exfalso. destruct Hex as [v [Hv _]].
    apply (proj2 (listed_values_In b v)) in Hv.
    rewrite <- Hsnd in Hv. exact Hv.
  - destruct (List.length (e :: vals) <=? 2)%nat; [| reflexivity].
    simpl. now destruct (_ && _).
Qed.

(** A band without samples cannot be classified. *)
Lemma classify_alpha_empty (b : Band) :
  classify_alpha b = None <-> band_values b = [].
Proof.
  rewrite <- getextrema_none. unfold classify_alpha.
  destruct (getextrema b) as [[min_a max_a] |];
    split; try reflexivity; discriminate.
Qed.

Lemma classify_alpha_cases (b : Band) (t : string) (h : bool) :
  classify_alpha b = Some (t, h) ->
  (t = "none" /\ h = false) \/
  (h = true /\ (t = "binary" \/ t = "partial")).
Proof.
  unfold classify_alpha.
  destruct (getextrema b) as [[min_a max_a] |]; [| discriminate].
  destruct (min_a <? 255)%nat; [| intros [= <- <-]; now left].
  destruct (band_getcolors b 257) as [[| e vals] |];
    try (intros [= <- <-]; right; split; [reflexivity | now right]).
  destruct (List.length (e :: vals) <=? 2)%nat;
    [| intros [= <- <-]; right; split; [reflexivity | now right]].
  destruct (forallb _ _); intros [= <- <-]; right;
    (split; [reflexivity |]); [now left | now right].
Qed.

(** [analyze_image] as its three steps. *)
Lemma analyze_image_intro (img : Image) (path : string) (b : Band)
    (t : string) (h : bool) (s : string) :
  alpha_channel img = Some b ->
  classify_alpha b = Some (t, h) ->
  suggest_algorithm img (Utils.is_ui_texture path) t = Some s ->
  analyze_image img path
  = Some {| mode := img_mode img; alpha_type := t;
            is_ui := Utils.is_ui_texture path;
            has_transparency := h; suggested_algorithm := s |}.
Proof.
  intros Hb Hc Hs. unfold analyze_image. now rewrite Hb, Hc, Hs.
Qed.

Lemma analyze_image_inv (img : Image) (path : string) (a : ImageAnalysis) :
  analyze_image img path = Some a ->
  exists b t h s,
    alpha_channel img = Some b /\
    classify_alpha b = Some (t, h) /\
    suggest_algorithm img (Utils.is_ui_texture path) t = Some s /\
    a = {| mode := img_mode img; alpha_type := t;
           is_ui := Utils.is_ui_texture path;
           has_transparency := h; suggested_algorithm := s |}.
Proof.
  unfold analyze_image.
  destruct (alpha_channel img) as [b |] eqn:Hb; [| discriminate].
  destruct (classify_alpha b) as [[t h] |] eqn:Hc; [| discriminate].
  destruct (suggest_algorithm img (Utils.is_ui_texture path) t) as [s |]
    eqn:Hs; [| discriminate].
  intros [= <-]. exists b, t, h, s. now repeat split.
Qed.

(** The classifier only ever answers [none], [binary] or [partial]. *)
Lemma analyze_image_alpha_type (img : Image) (path : string)
    (a : ImageAnalysis) :
  analyze_image img path = Some a ->
  In (alpha_type a) ["none"; "binary"; "partial"].
Proof.
  intros Ha.
  destruct (analyze_image_inv _ _ _ Ha) as [b [t [h [s [_ [Hc [_ ->]]]]]]].
  cbn [alpha_type].
  destruct (classify_alpha_cases _ _ _ Hc) as [[-> _] | [_ [-> | ->]]];
    simpl; auto.
Qed.

(** Every sample 0 or 255 makes a band binary. *)
Lemma binary_values_of_range (b : Band) :
  (forall v, In v (band_values b) -> v = 0%nat \/ v = 255%nat) ->
  binary_values b.
Proof.
  intros Hrange. split.
  - change 2%nat with (List.length [0%nat; 255%nat]).
    apply NoDup_incl_length; [apply NoDup_nodup |].
    intros v Hv. apply nodup_In in Hv. apply Hrange in Hv.
    simpl. intuition.
  - intros v Hv. apply nodup_In in Hv. now apply Hrange.
Qed.

(** An image whose colours cannot be listed has alpha 0 or 255 only. *)
Lemma getcolors_refused (img : Image) (maxcolors : Z) (b : Band) :
  getcolors img maxcolors = None ->
  alpha_channel img = Some b ->
  forall v, In v (band_values b) -> v = 0%nat \/ v = 255%nat.
Proof.
  unfold getcolors, alpha_channel. intros Hg.
  destruct (lib_getcolors_refusal _ _ _ Hg) as [Hmode Hconv].
  apply String.eqb_neq in Hmode. rewrite Hmode. cbn [negb].
  unfold convert.
  destruct (lib_convert (img_mode img) (img_raster img) "RGBA")
    as [rgba |] eqn:Hc; [| discriminate].
  cbn [option_map]. intros [= <-]. exact (Hconv rgba eq_refl).
Qed.

(** For an image with transparency the hint is always computed. *)
Lemma suggest_algorithm_transparent (img : Image) (ui : bool) (b : Band) :
  alpha_channel img = Some b ->
  exists s,
    suggest_algorithm img ui (if binary_valuesb b then "binary" else "partial")
    = Some s.
Proof.
  intros Hb. unfold suggest_algorithm.
  destruct ui; [now eexists |].
  destruct (binary_valuesb b) eqn:Hbin; [now eexists |].
  cbn [String.eqb Ascii.eqb Bool.eqb].
  destruct (getcolors img 257) as [colors |] eqn:Hg; [now eexists |].
  exfalso.
  pose proof (binary_values_of_range b (getcolors_refused _ _ _ Hg Hb)) as H.
  apply binary_valuesb_spec in H. congruence.
Qed.

(** C4.  For an image with a pixel whose alpha is below 255 the classifier
    returns, reports transparency, and answers [binary] exactly when the
    distinct alpha values are at most two, all in {0, 255}, and [partial]
    otherwise; so any alpha strictly between 0 and 255 gives [partial] and
    alpha values exactly {0, 255} give [binary]. *)
Theorem analyze_image_alpha_fidelity
    (img : Image) (path : string) (b : Band) :
  alpha_channel img = Some b ->
  (exists v, In v (band_values b) /\ (v < 255)%nat) ->
  exists a,
    analyze_image img path = Some a /\
    has_transparency a = true /\
    (alpha_type a = "binary" <-> binary_values b) /\
    (alpha_type a = "partial" <-> ~ binary_values b) /\
    ((exists v, In v (band_values b) /\ (0 < v < 255)%nat) ->
     alpha_type a = "partial") /\
    ((forall v, In v (band_values b) <-> v = 0%nat \/ v = 255%nat) ->
     alpha_type a = "binary").
Proof.
  intros Hb Hex.
  destruct (suggest_algorithm_transparent img (Utils.is_ui_texture path) b Hb)
    as [s Hs].
  eexists. split;
    [exact (analyze_image_intro _ _ _ _ _ _ Hb
              (classify_alpha_transparent b Hex) Hs) |].
  cbn [has_transparency alpha_type].
  pose proof (binary_valuesb_spec b) as Hspec.
  assert (Hbin : (if binary_valuesb b then "binary" else "partial") = "binary"
                 <-> binary_values b).
  { destruct (binary_valuesb b).
    - split; [intros _; now apply Hspec | reflexivity].
    - split; [discriminate | intros H; apply Hspec in H; discriminate]. }
  assert (Hpar : (if binary_valuesb b then "binary" else "partial") = "partial"
                 <-> ~ binary_values b).
  { destruct (binary_valuesb b).
    - split; [discriminate | intros H; exfalso; apply H; now apply Hspec].
    - split; [| reflexivity].
      intros _ H. apply Hspec in H. discriminate. }
  split; [reflexivity |]. split; [exact Hbin |]. split; [exact Hpar |].
  split.
  - intros [v [Hv Hrange]]. apply Hpar. intros [_ Hall].
    apply (nodup_In Nat.eq_dec) in Hv. apply Hall in Hv. lia.
  - intros Hset. apply Hbin. apply binary_values_of_range.
    intros v Hv. now apply Hset.
Qed.


End AlphaClassifier.

(* ------------------------------------------------------------------ *)
(** ** The variant encoder *)

Section VariantEncoder.
Import Optimizer.
Context {L : Imaging}.

Lemma is_jpeg_upper (fmt : string) :
  is_jpeg fmt = true ->
  PyStr.upper fmt = "JPG" \/ PyStr.upper fmt = "JPEG".
Proof.
  unfold is_jpeg. rewrite mem_In. simpl. intuition.
Qed.

Lemma convert_mode (img out : Image) (m : string) :
  convert img m = Some out -> img_mode out = m.
Proof.
  unfold convert. destruct (lib_convert _ _ _); simpl; [| discriminate].
  now intros [= <-].
Qed.

Lemma quantize_mode (img out : Image) (c : Z) :
  quantize img c = Some out -> img_mode out = "P".
Proof.
  unfold quantize. destruct (lib_quantize _ _); simpl; [| discriminate].
  now intros [= <-].
Qed.

(** C8.  For a JPEG-class container the encoder saves with format JPEG,
    optimized, at quality 85 for level 0 and [max 10 (100 - level * 10)]
    for any other level (so for every level in 0-9); no image in mode RGBA
    reaches the encoder, and a candidate in mode RGBA is flattened to RGB
    before it is saved. *)
Theorem save_candidate_buffer_jpeg
    (img : Image) (mode : string) (colors : option Z) (compression : Z)
    (fmt : string) :
  is_jpeg fmt = true ->
  let quality :=
    if (compression =? 0)%Z then 85%Z
    else Z.max 10 (100 - compression * 10) in
  let kwargs :=
    {| sa_format := "JPEG"; sa_optimize := Some true;
       sa_compress_level := None; sa_quality := Some quality |} in
  save_kwargs compression fmt = kwargs
  /\ save_candidate_buffer img mode colors compression fmt
     = (out <- output_image img mode colors fmt ;; save out kwargs)
  /\ (forall out, output_image img mode colors fmt = Some out ->
                  img_mode out <> "RGBA")
  /\ output_image img "RGBA" colors fmt
     = (rgba <- convert img "RGBA" ;; convert rgba "RGB")
  /\ save_candidate_buffer img "RGBA" colors compression fmt
     = (rgba <- convert img "RGBA" ;;
        flat <- convert rgba "RGB" ;;
        save flat kwargs).
Proof.
  intros Hjpeg quality kwargs.
  assert (Hkw : save_kwargs compression fmt = kwargs).
  { unfold save_kwargs. rewrite Hjpeg.
    destruct (is_jpeg_upper fmt Hjpeg) as [-> | ->]; reflexivity. }
  assert (Hrgba : output_image img "RGBA" colors fmt
                  = (rgba <- convert img "RGBA" ;; convert rgba "RGB")).
  { unfold output_image. rewrite Hjpeg. cbn [String.eqb Ascii.eqb Bool.eqb].
    destruct (convert img "RGBA") as [rgba |] eqn:Hc; [| reflexivity].
    rewrite (convert_mode _ _ _ Hc). reflexivity. }
  split; [exact Hkw |]. split; [| split; [| split]].
  - unfold save_candidate_buffer. now rewrite Hkw.
  - intros out. unfold output_image. rewrite Hjpeg.
    destruct (if mode =? "RGB" then _ else _) as [o |]; [| discriminate].
    cbn [andb].
    destruct (img_mode o =? "RGBA") eqn:Hm.
    + intros Hc. rewrite (convert_mode _ _ _ Hc). discriminate.
    + intros [= <-]. now apply String.eqb_neq.
  - exact Hrgba.
  - unfold save_candidate_buffer. rewrite Hkw, Hrgba.
    destruct (convert img "RGBA") as [rgba |]; reflexivity.
Qed.

End VariantEncoder.

(* ------------------------------------------------------------------ *)
(** ** The optimization race *)

Section SizeOrder.

Lemma inject_Z_lt (x y : Z) : ~ (inject_Z y <= inject_Z x)%Q -> (x < y)%Z.
Proof.
  intros H. destruct (Z_lt_le_dec x y) as [Hlt | Hle]; [exact Hlt |].
  exfalso. apply H. now rewrite <- Zle_Qle.
Qed.

(** A size below the threshold is below every size that is not. *)
Lemma int_lt_separates (s t : Z) (x : PyNum) :
  int_lt s x = true -> int_lt t x = false -> (s < t)%Z.
Proof.
  destruct x as [m | [q | | |]]; simpl; try discriminate.
  - rewrite Z.ltb_lt, Z.ltb_ge. lia.
  - rewrite negb_true_iff, negb_false_iff, Qle_bool_iff.
    intros Hs Ht. apply inject_Z_lt. intros Hle.
    assert (Hq : Qle_bool q (inject_Z s) = true).
    { apply Qle_bool_iff. now apply Qle_trans with (inject_Z t). }
    congruence.
Qed.

(** Anything smaller than a size below the threshold is below it too. *)
Lemma int_lt_below (s t : Z) (x : PyNum) :
  (s <= t)%Z -> int_lt t x = true -> int_lt s x = true.
Proof.
  intros Hle. destruct x as [m | [q | | |]]; simpl; try discriminate;
    try reflexivity.
  - rewrite !Z.ltb_lt. lia.
  - rewrite !negb_true_iff. intros Ht.
    destruct (Qle_bool q (inject_Z s)) eqn:Hs; [| reflexivity].
    apply Qle_bool_iff in Hs.
    assert (Hq : Qle_bool q (inject_Z t) = true).
    { apply Qle_bool_iff. apply Qle_trans with (inject_Z s); [exact Hs |].
      now rewrite <- Zle_Qle. }
    congruence.
Qed.

End SizeOrder.

Section Race.
Import Analysis Optimizer.
Context {L : Imaging}.
Variables (img : Image) (compression : Z) (fmt : string).
Variable baseline : PyNum.

Local Abbreviation enc := (encode img compression fmt).
Local Abbreviation invariant := (race_invariant img compression fmt baseline).

Lemma race_invariant_step (done : list Candidate) (st : RaceState)
    (c : Candidate) :
  invariant done st ->
  invariant (done ++ [c]) (race_step img compression fmt st c).
Proof.
  destruct st as [[[b0 |] best_size] best_mode]; unfold race_step;
    fold (encode img compression fmt c); fold enc; cbn [race_invariant].
  - (* a champion exists *)
    intros [i [c0 [s0 [Hnth [Henc [-> [-> [Hbase [Hmin Hfirst]]]]]]]]].
    assert (Hi : (i < List.length done)%nat)
      by (apply nth_error_Some; congruence).
    destruct (enc c) as [[b s] |] eqn:Hc.
    + cbn [int_lt]. destruct (s <? s0)%Z eqn:Hlt.
      * apply Z.ltb_lt in Hlt. cbn [race_invariant].
        exists (List.length done), c, s. repeat split.
        -- now rewrite nth_error_app2, Nat.sub_diag by lia.
        -- exact Hc.
        -- apply int_lt_below with s0; [lia | exact Hbase].
        -- intros c' b' s' Hin Henc'. apply in_app_or in Hin.
           destruct Hin as [Hin | [<- | []]].
           ++ specialize (Hmin _ _ _ Hin Henc'). lia.
           ++ rewrite Hc in Henc'. injection Henc' as _ <-. lia.
        -- intros j c' b' s' Hj Hnth' Henc'.
           rewrite nth_error_app1 in Hnth' by exact Hj.
           apply nth_error_In in Hnth'.
           specialize (Hmin _ _ _ Hnth' Henc'). lia.
      * apply Z.ltb_ge in Hlt. cbn [race_invariant].
        exists i, c0, s0. repeat split; try assumption.
        -- now rewrite nth_error_app1.
        -- intros c' b' s' Hin Henc'. apply in_app_or in Hin.
           destruct Hin as [Hin | [<- | []]].
           ++ now apply (Hmin _ _ _ Hin Henc').
           ++ rewrite Hc in Henc'. injection Henc' as _ <-. exact Hlt.
        -- intros j c' b' s' Hj Hnth' Henc'.
           rewrite nth_error_app1 in Hnth' by lia.
           now apply (Hfirst _ _ _ _ Hj Hnth' Henc').
    + cbn [race_invariant].
      exists i, c0, s0. repeat split; try assumption.
      * now rewrite nth_error_app1.
      * intros c' b' s' Hin Henc'. apply in_app_or in Hin.
        destruct Hin as [Hin | [<- | []]].
        -- now apply (Hmin _ _ _ Hin Henc').
        -- congruence.
      * intros j c' b' s' Hj Hnth' Henc'.
        rewrite nth_error_app1 in Hnth' by lia.
        now apply (Hfirst _ _ _ _ Hj Hnth' Henc').
  - (* no champion yet *)
    intros [-> [-> Hnone]].
    destruct (enc c) as [[b s] |] eqn:Hc.
    + destruct (int_lt s baseline) eqn:Hlt; cbn [race_invariant].
      * exists (List.length done), c, s. repeat split.
        -- now rewrite nth_error_app2, Nat.sub_diag by lia.
        -- exact Hc.
        -- exact Hlt.
        -- intros c' b' s' Hin Henc'. apply in_app_or in Hin.
           destruct Hin as [Hin | [<- | []]].
           ++ specialize (Hnone _ _ _ Hin Henc').
              pose proof (int_lt_separates _ _ _ Hlt Hnone). lia.
           ++ rewrite Hc in Henc'. injection Henc' as _ <-. lia.
        -- intros j c' b' s' Hj Hnth' Henc'.
           rewrite nth_error_app1 in Hnth' by exact Hj.
           apply nth_error_In in Hnth'.
           specialize (Hnone _ _ _ Hnth' Henc').
           exact (int_lt_separates _ _ _ Hlt Hnone).
      * repeat split. intros c' b' s' Hin Henc'. apply in_app_or in Hin.
        destruct Hin as [Hin | [<- | []]].
        -- now apply (Hnone _ _ _ Hin Henc').
        -- rewrite Hc in Henc'. injection Henc' as _ <-. exact Hlt.
    + cbn [race_invariant]. repeat split.
      intros c' b' s' Hin Henc'. apply in_app_or in Hin.
      destruct Hin as [Hin | [<- | []]].
      * now apply (Hnone _ _ _ Hin Henc').
      * congruence.
Qed.

Lemma race_invariant_fold (todo done : list Candidate) (st : RaceState) :
  invariant done st ->
  invariant (done ++ todo)
                 (fold_left (race_step img compression fmt) todo st).
Proof.
  revert done st. induction todo as [| c todo IH]; intros done st Hinv.
  - now rewrite app_nil_r.
  - cbn [fold_left].
    replace (done ++ c :: todo) with ((done ++ [c]) ++ todo)
      by now rewrite <- app_assoc.
    apply IH. now apply race_invariant_step.
Qed.

(** The state the race ends in, for any list of candidates. *)
Lemma race_invariant_final (candidates : list Candidate) :
  invariant candidates (race img compression fmt baseline candidates).
Proof.
  apply (race_invariant_fold candidates []). cbn. repeat split.
  intros c b s [].
Qed.

End Race.

(* ------------------------------------------------------------------ *)
(** ** [smart_optimize] *)

Section SmartOptimize.
Import Analysis Optimizer.
Context {L : Imaging}.

Lemma smart_optimize_eq (img : Image) (path : string) (baseline : PyNum)
    (compression : Z) (fmt : string) (ign : bool) (a : ImageAnalysis) :
  analyze_image img path = Some a ->
  smart_optimize img path baseline compression fmt ign
  = match race img compression fmt baseline (generate_candidates a ign) with
    | (Some b, best_size, best_mode) => Some (Some b, best_mode, best_size)
    | (None, _, _) =>
        match save_candidate_buffer img (safe_mode_of a ign) None
                                    compression fmt with
        | Some (buffer, n) =>
            Some (Some buffer, (safe_mode_of a ign ++ " (Fallback)")%string,
                  float_of_int n)
        | None =>
            Some (None, (safe_mode_of a ign ++ " (Fallback)")%string,
                  float_inf)
        end
    end.
Proof.
  intros Ha. unfold smart_optimize. rewrite Ha.
  destruct (race _ _ _ _ _) as [[[b |] best_size] best_mode]; reflexivity.
Qed.

(** Once the analysis has returned, [smart_optimize] returns. *)
Lemma smart_optimize_returns (img : Image) (path : string) (baseline : PyNum)
    (compression : Z) (fmt : string) (ign : bool) (a : ImageAnalysis) :
  analyze_image img path = Some a ->
  exists r, smart_optimize img path baseline compression fmt ign = Some r.
Proof.
  intros Ha. rewrite (smart_optimize_eq _ _ _ _ _ _ _ Ha).
  destruct (race _ _ _ _ _) as [[[b |] best_size] best_mode];
    [eexists; reflexivity |].
  destruct (save_candidate_buffer _ _ _ _ _) as [[buffer n] |];
    eexists; reflexivity.
Qed.

(** C1.  When some generated candidate encodes to a size strictly below
    the baseline, [smart_optimize] returns the buffer, the label and the
    size of a candidate whose size is the minimum over all candidates that
    encoded, and that candidate is the first one of that size. *)
Theorem smart_optimize_global_minimum
    (img : Image) (path : string) (baseline : PyNum) (compression : Z)
    (fmt : string) (ign : bool) (a : ImageAnalysis) :
  analyze_image img path = Some a ->
  (exists c b s,
      In c (generate_candidates a ign) /\
      encode img compression fmt c = Some (b, s) /\
      int_lt s baseline = true) ->
  exists i c b s,
    nth_error (generate_candidates a ign) i = Some c /\
    encode img compression fmt c = Some (b, s) /\
    smart_optimize img path baseline compression fmt ign
      = Some (Some b, candidate_label c, PInt s) /\
    (forall c' b' s',
        In c' (generate_candidates a ign) ->
        encode img compression fmt c' = Some (b', s') -> (s <= s')%Z) /\
    (forall j c' b' s',
        (j < i)%nat -> nth_error (generate_candidates a ign) j = Some c' ->
        encode img compression fmt c' = Some (b', s') -> (s < s')%Z).
Proof.
  intros Ha [c [b [s [Hin [Henc Hlt]]]]].
  rewrite (smart_optimize_eq _ _ _ _ _ _ _ Ha).
  pose proof (race_invariant_final img compression fmt baseline
                (generate_candidates a ign)) as Hinv.
  destruct (race _ _ _ _ _) as [[[b0 |] best_size] best_mode];
    cbn [race_invariant] in Hinv.
  - destruct Hinv as [i [c0 [s0 [Hnth [Henc0 [-> [-> [_ [Hmin Hfirst]]]]]]]]].
    exists i, c0, b0, s0.
    split; [exact Hnth |]. split; [exact Henc0 |]. split; [reflexivity |].
    split; [exact Hmin | exact Hfirst].
  - destruct Hinv as [_ [_ Hnone]].
    specialize (Hnone c b s Hin Henc). congruence.
Qed.

(** The race ends without a champion when no candidate encodes below the
    baseline. *)
Lemma race_without_champion (img : Image) (baseline : PyNum)
    (compression : Z) (fmt : string) (candidates : list Candidate) :
  (forall c b s,
      In c candidates -> encode img compression fmt c = Some (b, s) ->
      int_lt s baseline = false) ->
  race img compression fmt baseline candidates
  = (None, baseline, "Original").
Proof.
  intros Hnone.
  pose proof (race_invariant_final img compression fmt baseline candidates)
    as Hinv.
  destruct (race _ _ _ _ _) as [[[b0 |] best_size] best_mode];
    cbn [race_invariant] in Hinv.
  - destruct Hinv as [i [c0 [s0 [Hnth [Henc0 [_ [_ [Hlt _]]]]]]]].
    apply nth_error_In in Hnth.
    specialize (Hnone c0 b0 s0 Hnth Henc0). congruence.
  - now destruct Hinv as [-> [-> _]].
Qed.

(** C3, as the code has it.  When no candidate encodes to a size strictly
    below the baseline, [smart_optimize] returns the outcome of the
    fallback encode in the safe mode, RGB if transparency is ignored or
    the fidelity is [none] and RGBA otherwise, under the label
    ["<mode> (Fallback)"]: that encode's buffer and size when it succeeds,
    no buffer and an infinite size when it fails. *)
Theorem smart_optimize_fallback
    (img : Image) (path : string) (baseline : PyNum) (compression : Z)
    (fmt : string) (ign : bool) (a : ImageAnalysis) :
  analyze_image img path = Some a ->
  (forall c b s,
      In c (generate_candidates a ign) ->
      encode img compression fmt c = Some (b, s) ->
      int_lt s baseline = false) ->
  let safe_mode :=
    if ign || (alpha_type a =? "none") then "RGB" else "RGBA" in
  let label := (safe_mode ++ " (Fallback)")%string in
  smart_optimize img path baseline compression fmt ign
  = Some match save_candidate_buffer img safe_mode None compression fmt with
         | Some (buffer, n) => (Some buffer, label, float_of_int n)
         | None => (None, label, float_inf)
         end.
Proof.
  intros Ha Hnone safe_mode label.
  rewrite (smart_optimize_eq _ _ _ _ _ _ _ Ha).
  rewrite (race_without_champion _ _ _ _ _ Hnone).
  unfold safe_mode_of. fold safe_mode. fold label.
  destruct (save_candidate_buffer _ _ _ _ _) as [[buffer n] |];
    reflexivity.
Qed.

(** The fallback encode is the encode of the first candidate. *)
Lemma fallback_is_first_candidate (a : ImageAnalysis) (ign : bool) :
  In (alpha_type a) ["none"; "binary"; "partial"] ->
  hd_error (generate_candidates a ign) = Some (safe_mode_of a ign, None).
Proof.
  intros Hin. unfold generate_candidates, safe_mode_of.
  destruct ign; [reflexivity |]. cbn [orb].
  destruct Hin as [H | [H | [H | []]]]; rewrite <- H; reflexivity.
Qed.

(** So when every candidate fails to encode, the fallback fails with
    them and [smart_optimize] returns no buffer. *)
Lemma all_candidates_fail_no_buffer
    (img : Image) (path : string) (baseline : PyNum) (compression : Z)
    (fmt : string) (ign : bool) (a : ImageAnalysis) :
  analyze_image img path = Some a ->
  (forall c, In c (generate_candidates a ign) ->
             encode img compression fmt c = None) ->
  smart_optimize img path baseline compression fmt ign
  = Some (None, (safe_mode_of a ign ++ " (Fallback)")%string, float_inf).
Proof.
  intros Ha Hfail.
  rewrite (smart_optimize_eq _ _ _ _ _ _ _ Ha).
  rewrite race_without_champion.
  - pose proof (fallback_is_first_candidate a ign
                  (analyze_image_alpha_type _ _ _ Ha)) as Hhd.
    destruct (generate_candidates a ign) as [| c0 cs] eqn:Hc;
      [discriminate |].
    injection Hhd as ->.
    specialize (Hfail _ (or_introl eq_refl)). unfold encode in Hfail.
    cbn [fst snd] in Hfail. now rewrite Hfail.
  - intros c b s Hin Henc. rewrite (Hfail c Hin) in Henc. discriminate.
Qed.

Lemma generate_candidates_ignoring (a : ImageAnalysis) (c : Candidate) :
  In c (generate_candidates a true) ->
  c = ("RGB", None) \/ c = ("P", Some 256%Z) \/ c = ("P", Some 128%Z).
Proof.
  unfold generate_candidates. cbn [String.eqb Ascii.eqb Bool.eqb].
  destruct (is_ui a); simpl; intuition.
Qed.

(** C10.  With [ignore_transparency] set, the label [smart_optimize]
    returns is one of RGB, P-256, P-128 and "RGB (Fallback)": it never
    names RGBA, every candidate is RGB or palette-indexed, and the
    fallback mode is RGB. *)
Theorem smart_optimize_ignoring_never_rgba
    (img : Image) (path : string) (baseline : PyNum) (compression : Z)
    (fmt : string) (buf : option Buffer) (label : string) (size : PyNum) :
  smart_optimize img path baseline compression fmt true
    = Some (buf, label, size) ->
  In label ["RGB"; "P-256"; "P-128"; "RGB (Fallback)"] /\
  PyStr.contains "RGBA" label = false /\
  (forall a c, In c (generate_candidates a true) ->
               fst c = "RGB" \/ fst c = "P") /\
  (forall a, safe_mode_of a true = "RGB").
Proof.
  intros Hres.
  assert (Hlabel : In label ["RGB"; "P-256"; "P-128"; "RGB (Fallback)"]).
  { destruct (analyze_image img path) as [a |] eqn:Ha;
      [| unfold smart_optimize in Hres; rewrite Ha in Hres; discriminate].
    rewrite (smart_optimize_eq _ _ _ _ _ _ _ Ha) in Hres.
    pose proof (race_invariant_final img compression fmt baseline
                  (generate_candidates a true)) as Hinv.
    destruct (race _ _ _ _ _) as [[[b0 |] best_size] best_mode];
      cbn [race_invariant] in Hinv.
    - destruct Hinv as [i [c0 [s0 [Hnth [_ [_ [-> _]]]]]]].
      injection Hres as _ <- _.
      apply nth_error_In, generate_candidates_ignoring in Hnth.
      destruct Hnth as [-> | [-> | ->]]; simpl; intuition.
    - change (safe_mode_of a true) with "RGB" in Hres.
      destruct (save_candidate_buffer _ _ _ _ _) as [[buffer n] |];
        injection Hres as _ <- _; simpl; intuition. }
  split; [exact Hlabel |]. split; [| split].
  - simpl in Hlabel.
    destruct Hlabel as [<- | [<- | [<- | [<- | []]]]]; reflexivity.
  - intros a c Hin.
    destruct (generate_candidates_ignoring a c Hin) as [-> | [-> | ->]];
      simpl; intuition.
  - reflexivity.
Qed.

End SmartOptimize.

(* ------------------------------------------------------------------ *)
(** ** Worked instances on the raw library *)

Section Instances.
Import Analysis Optimizer RawLibrary.

Example analyze_sprite :
  analyze_image sprite "textures/items/apple.png" = Some sprite_analysis.
Proof. reflexivity. Qed.

Example analyze_opaque_rgb :
  analyze_image (image "RGB" red [red; red]) "test.png"
  = Some {| mode := "RGB"; alpha_type := "none"; is_ui := false;
            has_transparency := false; suggested_algorithm := "NEAREST" |}.
Proof. reflexivity. Qed.

Example analyze_pane_in_ui_folder :
  analyze_image pane "C:\pack\GUI\pane.png"
  = Some {| mode := "RGBA"; alpha_type := "partial"; is_ui := true;
            has_transparency := true; suggested_algorithm := "NEAREST" |}.
Proof. reflexivity. Qed.

Lemma smart_optimize_global_minimum_witness :
  exists i c b s,
    nth_error (generate_candidates sprite_analysis false) i = Some c /\
    encode sprite 9 "PNG" c = Some (b, s) /\
    smart_optimize sprite "textures/items/apple.png" float_inf 9 "PNG" false
      = Some (Some b, candidate_label c, PInt s) /\
    (forall c' b' s',
        In c' (generate_candidates sprite_analysis false) ->
        encode sprite 9 "PNG" c' = Some (b', s') -> (s <= s')%Z) /\
    (forall j c' b' s',
        (j < i)%nat ->
        nth_error (generate_candidates sprite_analysis false) j = Some c' ->
        encode sprite 9 "PNG" c' = Some (b', s') -> (s < s')%Z).
Proof.
  apply (smart_optimize_global_minimum sprite "textures/items/apple.png"
           float_inf 9 "PNG" false sprite_analysis).
  - reflexivity.
  - exists ("RGBA", None), (repeat x00 12), 12%Z.
    split; [left; reflexivity |]. split; reflexivity.
Defined.

Example smart_optimize_sprite_png :
  smart_optimize sprite "textures/items/apple.png" float_inf 9 "PNG" false
  = Some (Some (repeat x00 3), "P-256", PInt 3).
Proof. reflexivity. Qed.

(** Against a baseline of two bytes nothing wins and the fallback encodes. *)
Lemma smart_optimize_fallback_witness :
  smart_optimize sprite "textures/items/apple.png" (PInt 2) 9 "PNG" false
  = Some (Some (repeat x00 12), "RGBA (Fallback)", float_of_int 12).
Proof.
  refine (eq_trans
            (smart_optimize_fallback sprite "textures/items/apple.png"
               (PInt 2) 9 "PNG" false sprite_analysis eq_refl _)
            eq_refl).
  intros c b s [<- | [<- | [<- | []]]] [= _ <-]; reflexivity.
Defined.

(** C3 as stated fails: with a container format the library does not
    know, no candidate encodes, the hypothesis of the claim holds, and the
    result of [smart_optimize] carries no buffer: the fallback encode
    failed as the candidates did. *)
Lemma smart_optimize_fallback_can_fail :
  analyze_image sprite "textures/items/apple.png" = Some sprite_analysis /\
  (forall c b s,
      In c (generate_candidates sprite_analysis false) ->
      encode sprite 9 "TXT" c = Some (b, s) ->
      int_lt s float_inf = false) /\
  smart_optimize sprite "textures/items/apple.png" float_inf 9 "TXT" false
  = Some (None, "RGBA (Fallback)", float_inf) /\
  (forall b label size,
      smart_optimize sprite "textures/items/apple.png" float_inf 9 "TXT" false
      <> Some (Some b, label, size)).
Proof.
  assert (Hres :
    smart_optimize sprite "textures/items/apple.png" float_inf 9 "TXT" false
    = Some (None, "RGBA (Fallback)", float_inf)) by (vm_compute; reflexivity).
  split; [reflexivity |]. split; [| split].
  - intros c b s [<- | [<- | [<- | []]]] Henc; vm_compute in Henc;
      discriminate Henc.
  - exact Hres.
  - intros b label size H. rewrite Hres in H. discriminate H.
Qed.

Lemma analyze_image_alpha_fidelity_witness :
  let b : Band := [xff; x00; xff] in
  exists a,
    analyze_image sprite "textures/items/apple.png" = Some a /\
    has_transparency a = true /\
    (alpha_type a = "binary" <-> binary_values b) /\
    (alpha_type a = "partial" <-> ~ binary_values b) /\
    ((exists v, In v (band_values b) /\ (0 < v < 255)%nat) ->
     alpha_type a = "partial") /\
    ((forall v, In v (band_values b) <-> v = 0%nat \/ v = 255%nat) ->
     alpha_type a = "binary").
Proof.
  cbv zeta.
  apply (analyze_image_alpha_fidelity sprite "textures/items/apple.png"
           [xff; x00; xff]).
  - reflexivity.
  - exists 0%nat. split; [right; left; reflexivity | lia].
Defined.


(** The same image under a UI path is classified. *)
Example analyze_gray_in_ui_folder :
  analyze_image (image "I;16" red [red]) "textures/ui/stone.png"
  = Some {| mode := "I;16"; alpha_type := "none"; is_ui := true;
            has_transparency := false; suggested_algorithm := "NEAREST" |}.
Proof. reflexivity. Qed.

Lemma save_candidate_buffer_jpeg_witness :
  let kwargs :=
    {| sa_format := "JPEG"; sa_optimize := Some true;
       sa_compress_level := None; sa_quality := Some 70%Z |} in
  save_kwargs 3 "jpg" = kwargs
  /\ save_candidate_buffer pane "RGBA" None 3 "jpg"
     = (out <- output_image pane "RGBA" None "jpg" ;; save out kwargs)
  /\ (forall out, output_image pane "RGBA" None "jpg" = Some out ->
                  img_mode out <> "RGBA")
  /\ output_image pane "RGBA" None "jpg"
     = (rgba <- convert pane "RGBA" ;; convert rgba "RGB")
  /\ save_candidate_buffer pane "RGBA" None 3 "jpg"
     = (rgba <- convert pane "RGBA" ;;
        flat <- convert rgba "RGB" ;;
        save flat kwargs).
Proof.
  exact (save_candidate_buffer_jpeg pane "RGBA" None 3 "jpg" eq_refl).
Defined.

Example save_candidate_buffer_jpeg_pane :
  save_candidate_buffer pane "RGBA" None 3 "jpg" = Some (repeat x00 9, 9%Z).
Proof. reflexivity. Qed.

Lemma smart_optimize_ignoring_never_rgba_witness :
  In "RGB" ["RGB"; "P-256"; "P-128"; "RGB (Fallback)"] /\
  PyStr.contains "RGBA" "RGB" = false /\
  (forall a c, In c (generate_candidates a true) ->
               fst c = "RGB" \/ fst c = "P") /\
  (forall a : ImageAnalysis, safe_mode_of a true = "RGB").
Proof.
  exact (smart_optimize_ignoring_never_rgba pane "textures/glass.png"
           float_inf 9 "jpeg" (Some (repeat x00 9)) "RGB" (PInt 9) eq_refl).
Defined.

End Instances.

(* ================================================================== *)
(** * Further properties *)

(* ------------------------------------------------------------------ *)
(** ** [get_unique_path] *)

Section UniquePathProperties.
Variable path_exists : string -> bool.
Variable splitext : string -> string * string.

Local Abbreviation loop := (unique_loop path_exists).

Lemma unique_loop_sound (fuel : nat) (base ext : string) (c : Z) (p : string) :
  loop fuel base ext c (numbered base ext c) = Some p ->
  path_exists p = false /\
  exists k, (c <= k)%Z /\ p = numbered base ext k /\
    forall j, (c <= j < k)%Z -> path_exists (numbered base ext j) = true.
Proof.
  revert c. induction fuel as [| fuel IH]; intros c; cbn [unique_loop];
    [discriminate |].
  destruct (path_exists (numbered base ext c)) eqn:Hc.
  - intros Hloop. destruct (IH _ Hloop) as [Hfresh [k [Hk [Hp Hbelow]]]].
    split; [exact Hfresh |]. exists k. split; [lia |]. split; [exact Hp |].
    intros j Hj. destruct (Z.eq_dec j c) as [-> | Hne]; [exact Hc |].
    apply Hbelow. lia.
  - intros [= <-]. split; [exact Hc |]. exists c. split; [lia |].
    split; [reflexivity |]. intros j Hj. lia.
Qed.

Lemma unique_loop_terminates (n : nat) (fuel : nat) (base ext : string)
    (c : Z) :
  path_exists (numbered base ext (c + Z.of_nat n)) = false ->
  (n < fuel)%nat ->
  exists p, loop fuel base ext c (numbered base ext c) = Some p.
Proof.
  revert fuel c. induction n as [| n IH]; intros fuel c Hfree Hfuel;
    (destruct fuel as [| fuel]; [lia |]); cbn [unique_loop].
  - rewrite Z.add_0_r in Hfree. rewrite Hfree. now eexists.
  - destruct (path_exists (numbered base ext c)); [| now eexists].
    apply IH; [| lia].
    now replace (c + 1 + Z.of_nat n)%Z with (c + Z.of_nat (S n))%Z by lia.
Qed.

(** X1.  A path [get_unique_path] returns does not exist, and it is the
    first free name of the sequence [path], [base_1ext], [base_2ext], ...:
    the path itself when it is free, otherwise [base_k ext] with every
    smaller counter from 1 on taken. *)
Theorem get_unique_path_first_free (fuel : nat) (path p : string) :
  get_unique_path path_exists splitext fuel path = Some p ->
  path_exists p = false /\
  ((path_exists path = false /\ p = path) \/
   (path_exists path = true /\
    exists k,
      (1 <= k)%Z /\
      p = numbered (fst (splitext path)) (snd (splitext path)) k /\
      forall j, (1 <= j < k)%Z ->
        path_exists (numbered (fst (splitext path)) (snd (splitext path)) j)
        = true)).
Proof.
  unfold get_unique_path.
  destruct (path_exists path) eqn:Hpath; cbn [negb].
  - destruct (splitext path) as [base ext]. cbn [fst snd]. intros Hloop.
    destruct (unique_loop_sound _ _ _ _ _ Hloop) as [Hfresh Hk].
    split; [exact Hfresh |]. right. split; [reflexivity | exact Hk].
  - intros [= <-]. split; [exact Hpath |]. left. now split.
Qed.

(** X2.  The search ends: when some counter [k >= 1] gives a free name,
    [k] tests of the file system are enough for [get_unique_path] to
    return, and asking again for the returned path gives it back. *)
Theorem get_unique_path_terminates (fuel : nat) (path : string) (k : Z) :
  (1 <= k)%Z ->
  path_exists (numbered (fst (splitext path)) (snd (splitext path)) k)
  = false ->
  (Z.to_nat k <= fuel)%nat ->
  exists p,
    get_unique_path path_exists splitext fuel path = Some p /\
    get_unique_path path_exists splitext fuel p = Some p.
Proof.
  intros Hk Hfree Hfuel.
  assert (Hret : exists p,
             get_unique_path path_exists splitext fuel path = Some p).
  { unfold get_unique_path.
    destruct (path_exists path); cbn [negb]; [| now eexists].
    destruct (splitext path) as [base ext]. cbn [fst snd] in Hfree.
    apply (unique_loop_terminates (Z.to_nat (k - 1))); [| lia].
    now replace (1 + Z.of_nat (Z.to_nat (k - 1)))%Z with k by lia. }
  destruct Hret as [p Hp]. exists p. split; [exact Hp |].
  assert (Hfresh : path_exists p = false).
  { revert Hp. unfold get_unique_path.
    destruct (path_exists path) eqn:Hpath; cbn [negb].
    - destruct (splitext path) as [base ext]. intros Hloop.
      now destruct (unique_loop_sound _ _ _ _ _ Hloop).
    - now intros [= <-]. }
  unfold get_unique_path. now rewrite Hfresh.
Qed.

End UniquePathProperties.

(* ------------------------------------------------------------------ *)
(** ** The classifier, further *)

Section ClassifierProperties.
Import Analysis.
Context {L : Imaging}.

Lemma band_opaque_or_not (b : Band) :
  (exists v, In v (band_values b) /\ (v < 255)%nat) \/
  (forall v, In v (band_values b) -> v = 255%nat).
Proof.
  destruct (existsb (fun v => (v <? 255)%nat) (band_values b)) eqn:Hex.
  - left. apply existsb_exists in Hex. destruct Hex as [v [Hv Hlt]].
    exists v. split; [exact Hv | now apply Nat.ltb_lt].
  - right. intros v Hv. pose proof (band_values_bounded b v Hv) as Hle.
    destruct (Nat.eq_dec v 255) as [-> | Hne]; [reflexivity |].
    exfalso. assert (Htrue : existsb (fun v => (v <? 255)%nat)
                                     (band_values b) = true).
    { apply existsb_exists. exists v. split; [exact Hv |].
      apply Nat.ltb_lt. lia. }
    congruence.
Qed.

(** X3.  In every classification the classifier returns, transparency is
    reported exactly when some pixel of the RGBA view has alpha below 255,
    and the fidelity is [none] exactly when no transparency is reported;
    otherwise it is [binary] or [partial]. *)
Theorem analyze_image_transparency
    (img : Image) (path : string) (a : ImageAnalysis) :
  analyze_image img path = Some a ->
  exists b,
    alpha_channel img = Some b /\
    (has_transparency a = true <->
     exists v, In v (band_values b) /\ (v < 255)%nat) /\
    (alpha_type a = "none" <-> has_transparency a = false) /\
    (has_transparency a = true ->
     alpha_type a = "binary" \/ alpha_type a = "partial").
Proof.
  intros Ha.
  destruct (analyze_image_inv _ _ _ Ha) as [b [t [h [s [Hb [Hc [_ ->]]]]]]].
  exists b. split; [exact Hb |].
  cbn [has_transparency alpha_type].
  destruct (band_opaque_or_not b) as [Hex | Hall].
  - rewrite (classify_alpha_transparent b Hex) in Hc.
    injection Hc as <- <-.
    split; [split; [intros _; exact Hex | reflexivity] |].
    split; [split; [| discriminate] |].
    + destruct (binary_valuesb b); discriminate.
    + intros _. destruct (binary_valuesb b); [now left | now right].
  - assert (Hne : band_values b <> []).
    { intros He. apply classify_alpha_empty in He. congruence. }
    rewrite (classify_alpha_opaque b Hne Hall) in Hc.
    injection Hc as <- <-.
    split; [split; [discriminate |] |].
    + intros [v [Hv Hlt]]. apply Hall in Hv. lia.
    + split; [split; reflexivity | discriminate].
Qed.

Lemma alpha_channel_none (img : Image) :
  alpha_channel img = None <->
  img_mode img <> "RGBA" /\ convert img "RGBA" = None.
Proof.
  unfold alpha_channel.
  destruct (img_mode img =? "RGBA") eqn:Hm; cbn [negb].
  - apply String.eqb_eq in Hm.
    split; [discriminate | intros [Hne _]; contradiction].
  - apply String.eqb_neq in Hm.
    destruct (convert img "RGBA") as [rgba |].
    + split; [discriminate | intros [_ Hc]; discriminate].
    + split; [now intros _ | reflexivity].
Qed.

Lemma suggest_algorithm_none (img : Image) (ui : bool) (fidelity : string) :
  suggest_algorithm img ui fidelity = None <->
  ui = false /\ fidelity <> "binary" /\ getcolors img 257 = None.
Proof.
  unfold suggest_algorithm.
  destruct ui; [split; [discriminate | intros [H _]; discriminate] |].
  destruct (fidelity =? "binary") eqn:Hf.
  - apply String.eqb_eq in Hf.
    split; [discriminate | intros [_ [H _]]; contradiction].
  - apply String.eqb_neq in Hf.
    destruct (getcolors img 257) as [colors |].
    + split; [discriminate | intros [_ [_ H]]; discriminate].
    + split; [now intros _ | reflexivity].
Qed.

(** When the classifier raises: the conversion to RGBA raises, or the
    image has no pixel, or it is opaque, off the UI paths, and its colours
    cannot be listed. *)
Lemma analyze_image_none_iff (img : Image) (path : string) :
  analyze_image img path = None <->
  (img_mode img <> "RGBA" /\ convert img "RGBA" = None)
  \/ (exists b, alpha_channel img = Some b /\ band_values b = [])
  \/ (Utils.is_ui_texture path = false /\ getcolors img 257 = None /\
      exists b,
        alpha_channel img = Some b /\ band_values b <> [] /\
        forall v, In v (band_values b) -> v = 255%nat).
Proof.
  split.
  - unfold analyze_image.
    destruct (alpha_channel img) as [b |] eqn:Hb;
      [| intros _; left; now apply alpha_channel_none].
    destruct (classify_alpha b) as [[t h] |] eqn:Hc;
      [| intros _; right; left; exists b; split;
         [reflexivity | now apply classify_alpha_empty]].
    destruct (suggest_algorithm img (Utils.is_ui_texture path) t) as [s |]
      eqn:Hs; [discriminate |].
    intros _. right. right.
    apply suggest_algorithm_none in Hs. destruct Hs as [Hui [Ht Hg]].
    split; [exact Hui |]. split; [exact Hg |].
    exists b. split; [reflexivity |].
    assert (Hne : band_values b <> []).
    { intros He. apply classify_alpha_empty in He. congruence. }
    split; [exact Hne |].
    destruct (band_opaque_or_not b) as [Hex | Hall]; [| exact Hall].
    exfalso. rewrite (classify_alpha_transparent b Hex) in Hc.
    pose proof (binary_values_of_range b (getcolors_refused _ _ _ Hg Hb))
      as Hbin.
    apply binary_valuesb_spec in Hbin. rewrite Hbin in Hc.
    injection Hc as <- _. now contradiction Ht.
  - unfold analyze_image.
    intros [Hconv | [[b [Hb He]] | [Hui [Hg [b [Hb [Hne Hall]]]]]]].
    + now rewrite (proj2 (alpha_channel_none img) Hconv).
    + rewrite Hb. now rewrite (proj2 (classify_alpha_empty b) He).
    + rewrite Hb, (classify_alpha_opaque b Hne Hall).
      cbn beta iota. unfold suggest_algorithm.
      rewrite Hui, Hg. reflexivity.
Qed.

(** X4.  The classifier raises in exactly three cases: the image is not in
    mode RGBA and its conversion to RGBA raises; the image has no pixel;
    or the image is fully opaque, its path is not a UI path, and the
    library cannot list its colours.  An RGBA image is analysed as it is,
    and a returned classification carries the mode of the image and the UI
    verdict of the path. *)
Theorem analyze_image_failure (img : Image) (path : string) :
  (analyze_image img path = None <->
   (img_mode img <> "RGBA" /\ convert img "RGBA" = None)
   \/ (exists b, alpha_channel img = Some b /\ band_values b = [])
   \/ (Utils.is_ui_texture path = false /\ getcolors img 257 = None /\
       exists b,
         alpha_channel img = Some b /\ band_values b <> [] /\
         forall v, In v (band_values b) -> v = 255%nat))
  /\ (img_mode img = "RGBA" ->
      alpha_channel img = Some (getchannel_A img))
  /\ (forall a, analyze_image img path = Some a ->
                mode a = img_mode img /\
                is_ui a = Utils.is_ui_texture path).
Proof.
  split; [| split].
  - apply analyze_image_none_iff.
  - intros Hm. unfold alpha_channel.
    apply String.eqb_eq in Hm. now rewrite Hm.
  - intros a Ha.
    destruct (analyze_image_inv _ _ _ Ha) as [b [t [h [s [_ [_ [_ ->]]]]]]].
    now split.
Qed.

Lemma suggest_algorithm_cases (img : Image) (ui : bool) (fidelity s : string) :
  suggest_algorithm img ui fidelity = Some s ->
  (s = "NEAREST" \/ s = "LANCZOS") /\
  (ui = true \/ fidelity = "binary" -> s = "NEAREST").
Proof.
  unfold suggest_algorithm.
  destruct ui; [intros [= <-]; split; [now left | reflexivity] |].
  destruct (fidelity =? "binary") eqn:Hf;
    [intros [= <-]; split; [now left | reflexivity] |].
  apply String.eqb_neq in Hf.
  destruct (getcolors img 257) as [colors |]; [| discriminate].
  intros [= <-]. split.
  - destruct colors as [[| e colors] |]; try now right.
    destruct (List.length (e :: colors) <=? 256)%nat; [now left | now right].
  - intros [H | H]; [discriminate H | contradiction].
Qed.

(** X5.  With the [auto] algorithm the kernel chosen for a resize is the
    one the classifier suggested, never the default of the lookup: Lanczos
    when it suggested LANCZOS and nearest-neighbour otherwise, and always
    nearest-neighbour for a UI asset or a cutout image. *)
Theorem active_algo_auto (img : Image) (path : string) (a : ImageAnalysis) :
  analyze_image img path = Some a ->
  In (PyStr.lower (suggested_algorithm a)) (map fst Resize.algo_map) /\
  Resize.active_algo img path "auto"
  = Some (if suggested_algorithm a =? "LANCZOS"
          then Resize.LANCZOS else Resize.NEAREST) /\
  (is_ui a = true \/ alpha_type a = "binary" ->
   Resize.active_algo img path "auto" = Some Resize.NEAREST).
Proof.
  intros Ha. unfold Resize.active_algo. cbn [String.eqb Ascii.eqb Bool.eqb].
  rewrite Ha.
  destruct (analyze_image_inv _ _ _ Ha) as [b [t [h [s [_ [_ [Hs ->]]]]]]].
  cbn [suggested_algorithm is_ui alpha_type].
  destruct (suggest_algorithm_cases _ _ _ _ Hs) as [[-> | ->] Hnear].
  - split; [left; reflexivity |]. split; [reflexivity |].
    intros _. reflexivity.
  - split; [right; left; reflexivity |]. split; [reflexivity |].
    intros Hui. discriminate (Hnear Hui).
Qed.

End ClassifierProperties.

(* ------------------------------------------------------------------ *)
(** ** The variant encoder, further *)

Section EncoderProperties.
Import Optimizer.
Context {L : Imaging}.



(** X6.  A mode other than RGB, RGBA and P, spelled exactly so, is no
    candidate: [save_candidate_buffer] returns its failure pair whatever
    the image, the format and the library. *)
Theorem save_candidate_buffer_unknown_mode
    (img : Image) (mode : string) (colors : option Z) (compression : Z)
    (fmt : string) :
  ~ In mode ["RGB"; "RGBA"; "P"] ->
  save_candidate_buffer img mode colors compression fmt = None.
Proof.
  intros Hmode. unfold save_candidate_buffer, output_image.
  destruct (mode =? "RGB") eqn:H1;
    [apply String.eqb_eq in H1; exfalso; apply Hmode; simpl; auto |].
  destruct (mode =? "RGBA") eqn:H2;
    [apply String.eqb_eq in H2; exfalso; apply Hmode; simpl; auto |].
  destruct (mode =? "P") eqn:H3;
    [apply String.eqb_eq in H3; exfalso; apply Hmode; simpl; auto |].
  reflexivity.
Qed.

(** X7.  The image that reaches the encoder has the mode that was asked
    for, one of RGB, RGBA and P, except that for a JPEG-class container
    RGBA becomes RGB; a palette image is the quantization of the input
    itself when the input is in mode RGBA and of its conversion to RGBA
    otherwise, to 256 colours when no palette size is given. *)
Theorem output_image_mode
    (img out : Image) (mode : string) (colors : option Z) (fmt : string) :
  output_image img mode colors fmt = Some out ->
  In mode ["RGB"; "RGBA"; "P"] /\
  img_mode out
  = (if is_jpeg fmt && (mode =? "RGBA") then "RGB" else mode) /\
  (mode = "P" ->
   exists rgba,
     (if img_mode img =? "RGBA" then rgba = img
      else convert img "RGBA" = Some rgba) /\
     img_mode rgba = "RGBA" /\
     quantize rgba (match colors with Some c => c | None => 256%Z end)
     = Some out).
Proof.
  unfold output_image.
  destruct (mode =? "RGB") eqn:H1.
  { apply String.eqb_eq in H1. subst mode.
    destruct (convert img "RGB") as [o |] eqn:Hc; [| discriminate].
    pose proof (convert_mode _ _ _ Hc) as Hm. rewrite Hm.
    cbn [String.eqb Ascii.eqb Bool.eqb]. rewrite !andb_false_r.
    intros [= <-].
    split; [simpl; auto |]. split; [exact Hm | discriminate]. }
  destruct (mode =? "RGBA") eqn:H2.
  { apply String.eqb_eq in H2. subst mode.
    destruct (convert img "RGBA") as [o |] eqn:Hc; [| discriminate].
    pose proof (convert_mode _ _ _ Hc) as Hm. rewrite Hm.
    cbn [String.eqb Ascii.eqb Bool.eqb]. rewrite !andb_true_r.
    destruct (is_jpeg fmt).
    - intros Hflat. split; [simpl; auto |].
      split; [exact (convert_mode _ _ _ Hflat) | discriminate].
    - intros [= <-]. split; [simpl; auto |].
      split; [exact Hm | discriminate]. }
  destruct (mode =? "P") eqn:H3; [| discriminate].
  apply String.eqb_eq in H3. subst mode.
  destruct (if negb (img_mode img =? "RGBA") then convert img "RGBA"
            else Some img) as [rgba |] eqn:Hsrc; [| discriminate].
  assert (Hrgba : img_mode rgba = "RGBA").
  { destruct (img_mode img =? "RGBA") eqn:Hm; cbn [negb] in Hsrc.
    - injection Hsrc as <-. now apply String.eqb_eq.
    - exact (convert_mode _ _ _ Hsrc). }
  destruct (quantize rgba _) as [o |] eqn:Hq; [| discriminate].
  pose proof (quantize_mode _ _ _ Hq) as Hm. rewrite Hm.
  cbn [String.eqb Ascii.eqb Bool.eqb]. rewrite !andb_false_r.
  intros [= <-].
  split; [simpl; auto |]. split; [exact Hm |].
  intros _. exists rgba. split; [| now split].
  destruct (img_mode img =? "RGBA"); cbn [negb] in Hsrc;
    [now injection Hsrc as <- | exact Hsrc].
Qed.


(** X9.  The quality of a lossy save is never below 10; it is 85 at level
    0 and [100 - 10 * level] for the levels 1 to 9, so at most 90 and
    falling as the level rises, and it stays at 10 from level 9 on.  A
    negative level gives a quality above 100. *)
Theorem quality_of_bounds (compression : Z) :
  (10 <= quality_of compression)%Z
  /\ quality_of 0 = 85%Z
  /\ ((1 <= compression <= 9)%Z ->
      quality_of compression = (100 - 10 * compression)%Z)
  /\ ((1 <= compression)%Z -> (quality_of compression <= 90)%Z)
  /\ ((9 <= compression)%Z -> quality_of compression = 10%Z)
  /\ (forall level,
        (1 <= compression <= level)%Z ->
        (quality_of level <= quality_of compression)%Z)
  /\ ((compression < 0)%Z -> (100 < quality_of compression)%Z).
Proof.
  assert (Hq : forall c, (c <> 0)%Z ->
                 quality_of c = Z.max 10 (100 - c * 10)).
  { intros c Hc. unfold quality_of.
    destruct (c =? 0)%Z eqn:E; [apply Z.eqb_eq in E; lia | reflexivity]. }
  split; [| split; [reflexivity |]].
  - unfold quality_of. destruct (compression =? 0)%Z; lia.
  - repeat split.
    + intros H. rewrite Hq by lia. lia.
    + intros H. rewrite Hq by lia. lia.
    + intros H. rewrite Hq by lia. lia.
    + intros level H. rewrite !Hq by lia. lia.
    + intros H. rewrite Hq by lia. lia.
Qed.

End EncoderProperties.

(* ------------------------------------------------------------------ *)
(** ** [smart_optimize], further *)

Section SmartOptimizeProperties.
Import Analysis Optimizer.
Context {L : Imaging}.

(** The two ways [smart_optimize] ends once the analysis has returned: a
    champion of the race, or the fallback after a race nobody won. *)
Lemma smart_optimize_cases
    (img : Image) (path : string) (baseline : PyNum) (compression : Z)
    (fmt : string) (ign : bool) (a : ImageAnalysis) :
  analyze_image img path = Some a ->
  (exists c b s,
      In c (generate_candidates a ign) /\
      encode img compression fmt c = Some (b, s) /\
      int_lt s baseline = true /\
      smart_optimize img path baseline compression fmt ign
      = Some (Some b, candidate_label c, PInt s))
  \/
  ((forall c b s,
       In c (generate_candidates a ign) ->
       encode img compression fmt c = Some (b, s) ->
       int_lt s baseline = false) /\
   smart_optimize img path baseline compression fmt ign
   = Some match encode img compression fmt (safe_mode_of a ign, None) with
          | Some (buffer, n) =>
              (Some buffer, (safe_mode_of a ign ++ " (Fallback)")%string,
               float_of_int n)
          | None =>
              (None, (safe_mode_of a ign ++ " (Fallback)")%string, float_inf)
          end).
Proof.
  intros Ha. rewrite (smart_optimize_eq _ _ _ _ _ _ _ Ha).
  pose proof (race_invariant_final img compression fmt baseline
                (generate_candidates a ign)) as Hinv.
  destruct (race _ _ _ _ _) as [[[b0 |] best_size] best_mode];
    cbn [race_invariant] in Hinv.
  - left.
    destruct Hinv as [i [c0 [s0 [Hnth [Henc0 [-> [-> [Hlt _]]]]]]]].
    exists c0, b0, s0. apply nth_error_In in Hnth. now repeat split.
  - right. destruct Hinv as [_ [_ Hnone]]. split; [exact Hnone |].
    unfold encode. cbn [fst snd].
    destruct (save_candidate_buffer _ _ _ _ _) as [[buffer n] |];
      reflexivity.
Qed.

Lemma candidate_label_range (a : ImageAnalysis) (ign : bool) (c : Candidate) :
  In (alpha_type a) ["none"; "binary"; "partial"] ->
  In c (generate_candidates a ign) ->
  In (candidate_label c) ["RGB"; "RGBA"; "P-256"; "P-128"].
Proof.
  intros Hty Hin.
  destruct (generate_candidates_cases a ign Hty) as [m [Hm [Hl | Hl]]];
    rewrite Hl in Hin; destruct Hm as [-> | ->]; simpl in Hin;
    intuition (subst; simpl; auto).
Qed.

Lemma fallback_label_range (a : ImageAnalysis) (ign : bool) :
  In (safe_mode_of a ign ++ " (Fallback)")%string
     ["RGB (Fallback)"; "RGBA (Fallback)"].
Proof.
  unfold safe_mode_of.
  destruct (ign || (alpha_type a =? "none")); simpl; auto.
Qed.

(** The three shapes of a result. *)
Lemma smart_optimize_shape
    (img : Image) (path : string) (baseline : PyNum) (compression : Z)
    (fmt : string) (ign : bool)
    (buf : option Buffer) (label : string) (size : PyNum) :
  smart_optimize img path baseline compression fmt ign
    = Some (buf, label, size) ->
  (exists b s,
      buf = Some b /\ size = PInt s /\ int_lt s baseline = true /\
      In label ["RGB"; "RGBA"; "P-256"; "P-128"])
  \/ (exists b n,
        buf = Some b /\ size = float_of_int n /\
        int_lt n baseline = false /\
        In label ["RGB (Fallback)"; "RGBA (Fallback)"])
  \/ (buf = None /\ size = float_inf /\
      In label ["RGB (Fallback)"; "RGBA (Fallback)"]).
Proof.
  intros Hres.
  destruct (analyze_image img path) as [a |] eqn:Ha;
    [| unfold smart_optimize in Hres; rewrite Ha in Hres; discriminate].
  pose proof (analyze_image_alpha_type _ _ _ Ha) as Hty.
  destruct (smart_optimize_cases img path baseline compression fmt ign a Ha)
    as [[c [b [s [Hin [Henc [Hlt Heq]]]]]] | [Hnone Heq]];
    rewrite Heq in Hres.
  - injection Hres as <- <- <-. left. exists b, s.
    repeat split; try assumption.
    exact (candidate_label_range a ign c Hty Hin).
  - right.
    pose proof (fallback_is_first_candidate a ign Hty) as Hhd.
    pose proof (fallback_label_range a ign) as Hlab.
    destruct (encode img compression fmt (safe_mode_of a ign, None))
      as [[buffer n] |] eqn:Hfb; injection Hres as <- <- <-.
    + left. exists buffer, n. repeat split; try assumption.
      apply (Hnone (safe_mode_of a ign, None) buffer n); [| exact Hfb].
      destruct (generate_candidates a ign) as [| c0 cs];
        [discriminate Hhd |].
      injection Hhd as ->. now left.
    + right. now repeat split.
Qed.

(** X10.  Whatever [smart_optimize] returns is one of three things: a
    champion, labelled RGB, RGBA, P-256 or P-128, with an integer size
    strictly below the baseline; a fallback, labelled "RGB (Fallback)" or
    "RGBA (Fallback)", whose size is not below the baseline; or no buffer
    at all, under a fallback label and with an infinite size.  The label
    is never the initial "Original". *)
Theorem smart_optimize_outcomes
    (img : Image) (path : string) (baseline : PyNum) (compression : Z)
    (fmt : string) (ign : bool)
    (buf : option Buffer) (label : string) (size : PyNum) :
  smart_optimize img path baseline compression fmt ign
    = Some (buf, label, size) ->
  label <> "Original" /\
  ((exists b s,
       buf = Some b /\ size = PInt s /\ int_lt s baseline = true /\
       In label ["RGB"; "RGBA"; "P-256"; "P-128"])
   \/ (exists b n,
         buf = Some b /\ size = float_of_int n /\
         int_lt n baseline = false /\
         In label ["RGB (Fallback)"; "RGBA (Fallback)"])
   \/ (buf = None /\ size = float_inf /\
       In label ["RGB (Fallback)"; "RGBA (Fallback)"])).
Proof.
  intros Hres.
  pose proof (smart_optimize_shape _ _ _ _ _ _ _ _ _ Hres) as Hcases.
  split; [| exact Hcases].
  destruct Hcases as [[b [s [_ [_ [_ Hl]]]]] | [[b [n [_ [_ [_ Hl]]]]]
                      | [_ [_ Hl]]]]; simpl in Hl;
    intuition (subst; discriminate).
Qed.

(** X11.  Against an infinite baseline, the one the pipeline uses after a
    resize or for a lossy container, [smart_optimize] returns no buffer
    exactly when every candidate fails to encode; as soon as one candidate
    encodes, a champion is returned and never a fallback. *)
Theorem smart_optimize_unbounded
    (img : Image) (path : string) (compression : Z) (fmt : string)
    (ign : bool) (a : ImageAnalysis) :
  analyze_image img path = Some a ->
  ((forall c, In c (generate_candidates a ign) ->
              encode img compression fmt c = None) <->
   exists label,
     smart_optimize img path float_inf compression fmt ign
     = Some (None, label, float_inf))
  /\
  ((exists c, In c (generate_candidates a ign) /\
              encode img compression fmt c <> None) <->
   exists c b s,
     In c (generate_candidates a ign) /\
     encode img compression fmt c = Some (b, s) /\
     smart_optimize img path float_inf compression fmt ign
     = Some (Some b, candidate_label c, PInt s)).
Proof.
  intros Ha.
  pose proof (smart_optimize_cases img path float_inf compression fmt ign a Ha)
    as Hcases.
  assert (Hchamp :
    (exists c, In c (generate_candidates a ign) /\
               encode img compression fmt c <> None) ->
    exists c b s,
      In c (generate_candidates a ign) /\
      encode img compression fmt c = Some (b, s) /\
      smart_optimize img path float_inf compression fmt ign
      = Some (Some b, candidate_label c, PInt s)).
  { intros [c [Hin Henc]].
    destruct Hcases as [[c0 [b [s [Hin0 [Henc0 [_ Heq]]]]]] | [Hnone _]].
    - now exists c0, b, s.
    - destruct (encode img compression fmt c) as [[b s] |] eqn:Hc;
        [| contradiction].
      specialize (Hnone c b s Hin Hc). discriminate. }
  split; split.
  - intros Hfail. eexists.
    exact (all_candidates_fail_no_buffer _ _ _ _ _ _ _ Ha Hfail).
  - intros [label Hres] c Hin.
    destruct (encode img compression fmt c) as [[b s] |] eqn:Hc;
      [| reflexivity].
    destruct Hchamp as [c0 [b0 [s0 [_ [_ Heq]]]]].
    + exists c. split; [exact Hin |]. now rewrite Hc.
    + rewrite Heq in Hres. discriminate.
  - exact Hchamp.
  - intros [c [b [s [Hin [Henc _]]]]]. exists c.
    split; [exact Hin |]. now rewrite Henc.
Qed.

(** X12.  [smart_optimize] raises exactly when the analysis does, that is
    in three cases: the image is not RGBA and its conversion to RGBA
    raises; the image has no pixel; or the image is fully opaque, its path
    is not a UI path, and the library cannot list its colours.  No failure
    of an encode makes it raise. *)
Theorem smart_optimize_raises
    (img : Image) (path : string) (baseline : PyNum) (compression : Z)
    (fmt : string) (ign : bool) :
  (smart_optimize img path baseline compression fmt ign = None <->
   analyze_image img path = None)
  /\ (smart_optimize img path baseline compression fmt ign = None <->
      (img_mode img <> "RGBA" /\ convert img "RGBA" = None)
      \/ (exists b, alpha_channel img = Some b /\ band_values b = [])
      \/ (Utils.is_ui_texture path = false /\ getcolors img 257 = None /\
          exists b,
            alpha_channel img = Some b /\ band_values b <> [] /\
            forall v, In v (band_values b) -> v = 255%nat)).
Proof.
  assert (Hiff : smart_optimize img path baseline compression fmt ign = None
                 <-> analyze_image img path = None).
  { split.
    - intros Hres. destruct (analyze_image img path) as [a |] eqn:Ha;
        [| reflexivity].
      destruct (smart_optimize_returns img path baseline compression fmt ign
                  a Ha) as [r Hr].
      congruence.
    - intros Ha. unfold smart_optimize. now rewrite Ha. }
  split; [exact Hiff |].
  etransitivity; [exact Hiff | apply analyze_image_none_iff].
Qed.

End SmartOptimizeProperties.

(* ------------------------------------------------------------------ *)
(** ** The optimization strategy of the worker *)

Section WorkerProperties.
Import Analysis Optimizer Worker.
Context {L : Imaging}.

Lemma int_lt_float_of_int (s n : Z) :
  int_lt s (float_of_int n) = (s <? n)%Z.
Proof.
  unfold int_lt, float_of_int.
  destruct (Qle_bool (inject_Z n) (inject_Z s)) eqn:Hle; cbn [negb];
    symmetry.
  - apply Z.ltb_ge. apply Qle_bool_iff in Hle. now rewrite Zle_Qle.
  - apply Z.ltb_lt. apply inject_Z_lt. intros H.
    apply Qle_bool_iff in H. congruence.
Qed.

Lemma int_of_num_float (n : Z) : int_of_num (float_of_int n) = Some n.
Proof. unfold int_of_num, float_of_int. simpl. now rewrite Z.quot_1_r. Qed.

(** X13.  In auto mode a returned result always comes with a file, written
    or copied, and is never reported as "Error": when the fallback fails,
    the conversion of its infinite size to an integer raises.  The
    strategy raises exactly when [smart_optimize] raises or returns no
    buffer; the original is copied only for PNG output without a resize. *)
Theorem auto_strategy_never_error
    (img : Image) (path : string) (original_size : Z) (needs_resize : bool)
    (compression : Z) (fmt : string) (ign : bool) :
  let benchmark :=
    if negb needs_resize && (PyStr.upper fmt =? "PNG")
    then float_of_int original_size else float_inf in
  (forall o,
      auto_strategy img path original_size needs_resize compression fmt ign
      = Some o ->
      action o <> NoFile /\ final_mode o <> "Error" /\
      (action o = CopyOriginal ->
       needs_resize = false /\ PyStr.upper fmt = "PNG"))
  /\
  (auto_strategy img path original_size needs_resize compression fmt ign
   = None <->
   smart_optimize img path benchmark compression fmt ign = None \/
   exists label,
     smart_optimize img path benchmark compression fmt ign
     = Some (None, label, float_inf)).
Proof.
  intros benchmark. unfold auto_strategy. fold benchmark.
  destruct (smart_optimize _ _ _ _ _ _) as [[[buf label] size] |] eqn:Hres.
  2:{ split; [discriminate |]. split; [now left | reflexivity]. }
  assert (Hkeep : negb needs_resize && (PyStr.upper fmt =? "PNG") = true ->
                  needs_resize = false /\ PyStr.upper fmt = "PNG").
  { intros H. apply andb_true_iff in H. destruct H as [H1 H2].
    apply negb_true_iff in H1. now apply String.eqb_eq in H2. }
  destruct (smart_optimize_shape _ _ _ _ _ _ _ _ _ Hres)
    as [[b [s [-> [-> [Hlt Hl]]]]] | [[b [n [-> [-> [Hlt Hl]]]]]
        | [-> [-> Hl]]]].
  - cbn [int_of_num]. rewrite Hlt. split.
    + intros o [= <-]. cbn [action final_mode].
      split; [discriminate |]. split; [| discriminate].
      simpl in Hl. intuition (subst; discriminate).
    + split; [discriminate |].
      intros [H | [l H]]; discriminate.
  - rewrite int_of_num_float, Hlt. split.
    + destruct (negb needs_resize && (PyStr.upper fmt =? "PNG")) eqn:Hk;
        intros o [= <-]; cbn [action final_mode].
      * split; [discriminate |]. split; [discriminate |].
        intros _. now apply Hkeep.
      * split; [discriminate |]. split; [| discriminate].
        simpl in Hl. intuition (subst; discriminate).
    + split.
      * destruct (negb needs_resize && (PyStr.upper fmt =? "PNG"));
          discriminate.
      * intros [H | [l H]]; discriminate.
  - cbn [int_of_num float_inf]. split; [discriminate |].
    split; [| reflexivity]. intros _. right. now exists label.
Qed.

(** X14.  A manual mode always returns, and encodes one candidate: RGB
    when transparency is ignored, whatever mode was asked for; otherwise P
    with 256 colours for [palette], RGB for [rgb] and RGBA for any other
    mode.  When that encode gives a buffer, the buffer is what is written,
    under the mode of the candidate and at the size of the encode; when the
    encode fails, and only then, the result is "Error" with no file and
    size 0.  The original is never copied. *)
Theorem manual_strategy_modes
    (img : Image) (save_mode : string) (compression : Z) (fmt : string)
    (ign : bool) :
  let target_mode :=
    if ign then "RGB"
    else if save_mode =? "palette" then "P"
         else if save_mode =? "rgb" then "RGB" else "RGBA" in
  let encoded :=
    save_candidate_buffer img target_mode
      (if ign then None
       else if save_mode =? "palette" then Some 256%Z else None)
      compression fmt in
  exists o,
    manual_strategy img save_mode compression fmt ign = Some o /\
    (forall buf n,
        encoded = Some (buf, n) ->
        o = {| action := WriteBuffer buf; final_mode := target_mode;
               new_size := n |}) /\
    (encoded = None ->
     o = {| action := NoFile; final_mode := "Error"; new_size := 0%Z |}) /\
    (final_mode o = "Error" <-> encoded = None) /\
    (action o = NoFile <-> encoded = None) /\
    (forall buf,
        action o = WriteBuffer buf <->
        exists n, encoded = Some (buf, n)) /\
    action o <> CopyOriginal.
Proof.
  intros target_mode encoded. unfold manual_strategy.
  assert (Htm : (if ign then "RGB"
                 else if save_mode =? "palette" then "P"
                      else if save_mode =? "rgb" then "RGB" else "RGBA")
                = target_mode) by reflexivity.
  replace (if ign then "RGB"
           else if save_mode =? "palette" then "P"
                else if save_mode =? "rgb" then "RGB" else "RGBA")
    with target_mode by exact Htm.
  assert (Hcol : (if target_mode =? "P" then Some 256%Z else None)
                 = (if ign then None
                    else if save_mode =? "palette" then Some 256%Z
                         else None)).
  { unfold target_mode. destruct ign; [reflexivity |].
    destruct (save_mode =? "palette"); [reflexivity |].
    destruct (save_mode =? "rgb"); reflexivity. }
  rewrite Hcol. fold encoded.
  assert (Hne : target_mode <> "Error").
  { unfold target_mode. destruct ign; [discriminate |].
    destruct (save_mode =? "palette"); [discriminate |].
    destruct (save_mode =? "rgb"); discriminate. }
  destruct encoded as [[buffer size_int] |]; eexists;
    (split; [reflexivity |]); cbn [final_mode action new_size].
  - split; [now intros buf n [= <- <-] |].
    split; [discriminate |].
    split; [split; [intros H; contradiction | discriminate] |].
    split; [split; discriminate |].
    split; [| discriminate].
    intros buf. split.
    + intros [= <-]. now exists size_int.
    + now intros [n [= <- _]].
  - split; [discriminate |].
    split; [reflexivity |].
    split; [split; reflexivity |].
    split; [split; reflexivity |].
    split; [| discriminate].
    intros buf. split; [discriminate | intros [n H]; discriminate].
Qed.

(** X15.  In auto mode the fallback encode is never what is written: the
    reported mode is the label of a champion, RGB, RGBA, P-256 or P-128,
    written at a size strictly below the benchmark, or it is
    "Original (Skipped)".  After a resize or for a lossy container, where
    the benchmark is infinite, a returned result is always a champion. *)
Theorem auto_strategy_reports
    (img : Image) (path : string) (original_size : Z) (needs_resize : bool)
    (compression : Z) (fmt : string) (ign : bool) (o : Outcome) :
  auto_strategy img path original_size needs_resize compression fmt ign
  = Some o ->
  (exists buf,
      action o = WriteBuffer buf /\
      In (final_mode o) ["RGB"; "RGBA"; "P-256"; "P-128"] /\
      smart_optimize img path
        (if negb needs_resize && (PyStr.upper fmt =? "PNG")
         then float_of_int original_size else float_inf)
        compression fmt ign
      = Some (Some buf, final_mode o, PInt (new_size o)) /\
      (negb needs_resize && (PyStr.upper fmt =? "PNG") = true ->
       (new_size o < original_size)%Z))
  \/ (action o = CopyOriginal /\ final_mode o = "Original (Skipped)" /\
      new_size o = original_size /\
      negb needs_resize && (PyStr.upper fmt =? "PNG") = true).
Proof.
  unfold auto_strategy.
  set (keep := negb needs_resize && (PyStr.upper fmt =? "PNG")).
  destruct (smart_optimize _ _ _ _ _ _) as [[[buf label] size] |] eqn:Hres;
    [| discriminate].
  destruct (smart_optimize_shape _ _ _ _ _ _ _ _ _ Hres)
    as [[b [s [-> [-> [Hlt Hl]]]]] | [[b [n [-> [-> [Hlt Hl]]]]]
        | [-> [-> _]]]].
  - cbn [int_of_num]. rewrite Hlt. intros [= <-]. left. exists b.
    cbn [action new_size final_mode].
    split; [reflexivity |]. split; [exact Hl |]. split; [reflexivity |].
    intros Hk. rewrite Hk, int_lt_float_of_int in Hlt.
    now apply Z.ltb_lt in Hlt.
  - rewrite int_of_num_float, Hlt.
    destruct keep eqn:Hk.
    + intros [= <-]. right. now repeat split.
    + discriminate Hlt.
  - discriminate.
Qed.


End WorkerProperties.

(* ------------------------------------------------------------------ *)
(** ** The pre-analysis tally *)

Section TallyProperties.
Import Report.

Lemma format_eqb_eq (x y : option string) : format_eqb x y = true <-> x = y.
Proof.
  destruct x as [a |], y as [b |]; simpl; try (split; congruence).
  rewrite String.eqb_eq. split; congruence.
Qed.

Lemma dict_get_set_formats (d : list (option string * Z))
    (k k' : option string) (v : Z) :
  dict_get format_eqb (dict_set format_eqb d k v) k'
  = if format_eqb k k' then Some v else dict_get format_eqb d k'.
Proof.
  induction d as [| [k0 v0] d IH]; cbn [dict_set dict_get].
  - reflexivity.
  - destruct (format_eqb k0 k) eqn:H0; cbn [dict_get].
    + apply format_eqb_eq in H0. subst k0.
      now destruct (format_eqb k k').
    + rewrite IH. destruct (format_eqb k0 k') eqn:H1; [| reflexivity].
      apply format_eqb_eq in H1. subst k0.
      destruct (format_eqb k k') eqn:H2; [| reflexivity].
      apply format_eqb_eq in H2. subst k'.
      assert (Hrefl : format_eqb k k = true) by now apply format_eqb_eq.
      congruence.
Qed.

Lemma dict_total_set (d : list (option string * Z)) (k : option string) :
  dict_total
    (dict_set format_eqb d k
       (match dict_get format_eqb d k with Some n => n | None => 0 end + 1))
  = (dict_total d + 1)%Z.
Proof.
  induction d as [| [k0 v0] d IH]; cbn [dict_set dict_get].
  - unfold dict_total. simpl. lia.
  - destruct (format_eqb k0 k); unfold dict_total in *; simpl in *; lia.
Qed.

Lemma count_reports_cons (p : FileReport -> bool) (res : option FileReport)
    (rest : list (option FileReport)) :
  count_reports p (res :: rest)
  = ((match res with
      | Some r => if p r then 1 else 0
      | None => 0
      end) + count_reports p rest)%Z.
Proof.
  unfold count_reports. cbn [filter].
  destruct res as [r |]; [destruct (p r) |]; cbn [List.length]; lia.
Qed.

Lemma count_reports_nonneg (p : FileReport -> bool)
    (results : list (option FileReport)) :
  (0 <= count_reports p results)%Z.
Proof. unfold count_reports. lia. Qed.

Lemma count_reports_permutation (p : FileReport -> bool)
    (l l' : list (option FileReport)) :
  Permutation l l' -> count_reports p l = count_reports p l'.
Proof.
  induction 1 as [| x l l' _ IH | x y l | l l' l'' _ IH1 _ IH2];
    rewrite ?count_reports_cons; lia.
Qed.

Lemma sum_sizes_permutation (l l' : list (option FileReport)) :
  Permutation l l' -> sum_sizes l = sum_sizes l'.
Proof.
  unfold sum_sizes.
  induction 1 as [| x l l' _ IH | x y l | l l' l'' _ IH1 _ IH2];
    cbn [fold_right]; try lia.
  - destruct x; lia.
  - destruct x, y; lia.
Qed.

(** The tally in closed form, from any state whose fidelity counters are
    the three of [initial_stats]. *)
Lemma tally_all_closed (results : list (option FileReport)) :
  (forall r, In (Some r) results ->
             In (alpha_type r) ["none"; "binary"; "partial"]) ->
  forall (st0 : Stats) (a b c : Z),
    alpha_types st0 = [("none", a); ("binary", b); ("partial", c)] ->
    exists st,
      tally_all st0 results = Some st /\
      alpha_types st
      = [("none",
          (a + count_reports (fun r => String.eqb (alpha_type r) "none") results)%Z);
         ("binary",
          (b + count_reports (fun r => String.eqb (alpha_type r) "binary") results)%Z);
         ("partial",
          (c + count_reports (fun r => String.eqb (alpha_type r) "partial") results)%Z)]
      /\ ui_textures st
         = (ui_textures st0 + count_reports is_ui results)%Z
      /\ total_size st = (total_size st0 + sum_sizes results)%Z
      /\ dict_total (formats st)
         = (dict_total (formats st0)
            + count_reports (fun _ => true) results)%Z
      /\ forall k,
           dict_get format_eqb (formats st) k
           = let n := count_reports (fun r => format_eqb (format r) k)
                                    results in
             if (n =? 0)%Z then dict_get format_eqb (formats st0) k
             else Some (match dict_get format_eqb (formats st0) k with
                        | Some m => m | None => 0 end + n)%Z.
Proof.
  induction results as [| res rest IH]; intros Hvalid st0 a b c Halpha.
  - exists st0. cbn [tally_all]. unfold count_reports, sum_sizes. simpl.
    rewrite Halpha, !Z.add_0_r. repeat split; reflexivity.
  - assert (Hrest : forall r, In (Some r) rest ->
                      In (alpha_type r) ["none"; "binary"; "partial"])
      by (intros r Hr; apply Hvalid; now right).
    destruct res as [r |].
    + assert (Hr : In (alpha_type r) ["none"; "binary"; "partial"])
        by (apply Hvalid; now left).
      cbn [tally_all tally]. rewrite Halpha.
      assert (Hstep : exists a' b' c',
        dict_get String.eqb [("none", a); ("binary", b); ("partial", c)]
                 (alpha_type r) <> None /\
        (match dict_get String.eqb
                 [("none", a); ("binary", b); ("partial", c)] (alpha_type r)
         with
         | Some n =>
             dict_set String.eqb
               [("none", a); ("binary", b); ("partial", c)]
               (alpha_type r) (n + 1)%Z
         | None => []
         end) = [("none", a'); ("binary", b'); ("partial", c')] /\
        a' = (a + if String.eqb (alpha_type r) "none" then 1 else 0)%Z /\
        b' = (b + if String.eqb (alpha_type r) "binary" then 1 else 0)%Z /\
        c' = (c + if String.eqb (alpha_type r) "partial" then 1 else 0)%Z).
      { destruct Hr as [H | [H | [H | []]]]; rewrite <- H; simpl;
          do 3 eexists; (split; [discriminate |]);
          (split; [reflexivity |]); repeat split; lia. }
      destruct Hstep as [a' [b' [c' [Hsome [Hset [-> [-> ->]]]]]]].
      destruct (dict_get String.eqb _ (alpha_type r)) as [n |] eqn:Hget;
        [| contradiction].
      match goal with
      | |- exists st, tally_all ?s rest = _ /\ _ =>
          destruct (IH Hrest s _ _ _ Hset)
            as [st [Hrun [Ha [Hui [Htot [Hsum Hfmt]]]]]]
      end.
      exists st. split; [exact Hrun |].
      cbn [formats ui_textures total_size] in *.
      rewrite !count_reports_cons.
      split.
      { rewrite Ha.
        f_equal; [f_equal; lia |].
        f_equal; [f_equal; lia |].
        f_equal. f_equal. lia. }
      split; [rewrite Hui; destruct (is_ui r); lia |].
      split; [rewrite Htot; unfold sum_sizes; cbn [fold_right]; lia |].
      split; [rewrite Hsum, dict_total_set; lia |].
      intros k. rewrite Hfmt. cbn zeta. rewrite dict_get_set_formats.
      rewrite count_reports_cons. cbn beta iota.
      set (m := count_reports (fun r0 => format_eqb (format r0) k) rest).
      assert (Hm : (0 <= m)%Z) by apply count_reports_nonneg.
      destruct (format_eqb (format r) k) eqn:Hk.
      * apply format_eqb_eq in Hk. rewrite Hk.
        destruct (m =? 0)%Z eqn:E1; destruct (1 + m =? 0)%Z eqn:E2;
          try (apply Z.eqb_eq in E2; lia);
          try (apply Z.eqb_eq in E1); f_equal; lia.
      * rewrite Z.add_0_l. reflexivity.
    + cbn [tally_all tally]. rewrite !count_reports_cons.
      destruct (IH Hrest st0 a b c Halpha)
        as [st [Hrun [Ha [Hui [Htot [Hsum Hfmt]]]]]].
      exists st. split; [exact Hrun |].
      unfold sum_sizes in *. cbn [fold_right]. rewrite !Z.add_0_l.
      now repeat split.
Qed.

Section WithLibrary.
Context {L : Imaging}.

Lemma analyze_single_file_alpha_type
    (file : option (Z * option string * Image)) (path : string)
    (r : FileReport) :
  analyze_single_file file path = Some r ->
  In (alpha_type r) ["none"; "binary"; "partial"].
Proof.
  unfold analyze_single_file.
  destruct file as [[[sz fmt] img] |]; [| discriminate].
  destruct (Analysis.analyze_image img path) as [a |] eqn:Ha;
    [| discriminate].
  intros [= <-]. cbn [alpha_type].
  exact (analyze_image_alpha_type _ _ _ Ha).
Qed.

(** X17.  The tally of any batch of [analyze_single_file] results never
    raises, and its numbers add up: the opaque, binary and partial counts
    sum to the number of files analysed, as do the per-format counts; the
    UI count is the number of reports with the UI flag and the total size
    the sum of the reported sizes.  Files that failed to analyse count
    nowhere. *)
Theorem tally_all_totals
    (inputs : list (option (Z * option string * Image) * string)) :
  let results :=
    map (fun i => analyze_single_file (fst i) (snd i)) inputs in
  let analysed := count_reports (fun _ => true) results in
  exists st n_none n_binary n_partial,
    tally_all initial_stats results = Some st /\
    alpha_types st
    = [("none", n_none); ("binary", n_binary); ("partial", n_partial)] /\
    (n_none + n_binary + n_partial = analysed)%Z /\
    dict_total (formats st) = analysed /\
    ui_textures st = count_reports is_ui results /\
    (0 <= ui_textures st <= analysed)%Z /\
    total_size st = sum_sizes results /\
    (analysed <= Z.of_nat (List.length inputs))%Z.
Proof.
  intros results analysed.
  assert (Hvalid : forall r, In (Some r) results ->
                     In (alpha_type r) ["none"; "binary"; "partial"]).
  { intros r Hr. unfold results in Hr. apply in_map_iff in Hr.
    destruct Hr as [[file path] [Hr _]].
    exact (analyze_single_file_alpha_type _ _ _ Hr). }
  destruct (tally_all_closed results Hvalid initial_stats 0 0 0 eq_refl)
    as [st [Hrun [Ha [Hui [Htot [Hsum _]]]]]].
  cbn [initial_stats formats ui_textures total_size] in *.
  exists st. do 3 eexists. split; [exact Hrun |]. split; [exact Ha |].
  assert (Hsplit : forall l : list (option FileReport),
    (forall r, In (Some r) l ->
               In (alpha_type r) ["none"; "binary"; "partial"]) ->
    (count_reports (fun r => String.eqb (alpha_type r) "none") l
     + count_reports (fun r => String.eqb (alpha_type r) "binary") l
     + count_reports (fun r => String.eqb (alpha_type r) "partial") l
     = count_reports (fun _ => true) l)%Z).
  { induction l as [| res l IHl]; intros Hl; [reflexivity |].
    rewrite !count_reports_cons.
    assert (Hl' : forall r, In (Some r) l ->
                    In (alpha_type r) ["none"; "binary"; "partial"])
      by (intros r Hr; apply Hl; now right).
    specialize (IHl Hl'). destruct res as [r |]; [| lia].
    destruct (Hl r (or_introl eq_refl)) as [H | [H | [H | []]]];
      rewrite <- H; cbn [String.eqb Ascii.eqb Bool.eqb]; lia. }
  assert (Hle : forall (p : FileReport -> bool) (l : list (option FileReport)),
    (count_reports p l <= count_reports (fun _ => true) l)%Z).
  { intros p l. induction l as [| res l IHl]; [reflexivity |].
    rewrite !count_reports_cons.
    destruct res as [r |]; [destruct (p r) |]; lia. }
  assert (Hlen : (count_reports (fun _ => true) results
                  <= Z.of_nat (List.length results))%Z).
  { unfold count_reports. apply Nat2Z.inj_le, filter_length_le. }
  split; [specialize (Hsplit results Hvalid); fold analysed in Hsplit; lia |].
  split; [unfold dict_total in Hsum at 2; simpl in Hsum; fold analysed in Hsum;
          lia |].
  split; [lia |].
  split; [pose proof (Hle is_ui results);
          pose proof (count_reports_nonneg is_ui results);
          fold analysed in H; lia |].
  split; [lia |].
  unfold results in Hlen. rewrite length_map in Hlen. exact Hlen.
Qed.

End WithLibrary.

(** X18.  The order in which the workers complete does not change the
    report: for two orders of the same valid results the tallies agree on
    the opaque, binary and partial counts, the UI count, the total size
    and the count of every format; only the order in which the formats
    are listed can differ. *)
Theorem tally_all_order_independent
    (results results' : list (option FileReport)) :
  Permutation results results' ->
  (forall r, In (Some r) results ->
             In (alpha_type r) ["none"; "binary"; "partial"]) ->
  exists st st',
    tally_all initial_stats results = Some st /\
    tally_all initial_stats results' = Some st' /\
    alpha_types st' = alpha_types st /\
    ui_textures st' = ui_textures st /\
    total_size st' = total_size st /\
    dict_total (formats st') = dict_total (formats st) /\
    forall k,
      dict_get format_eqb (formats st') k = dict_get format_eqb (formats st) k.
Proof.
  intros Hperm Hvalid.
  assert (Hvalid' : forall r, In (Some r) results' ->
                      In (alpha_type r) ["none"; "binary"; "partial"]).
  { intros r Hr. apply Hvalid.
    exact (Permutation_in _ (Permutation_sym Hperm) Hr). }
  destruct (tally_all_closed results Hvalid initial_stats 0 0 0 eq_refl)
    as [st [Hrun [Ha [Hui [Htot [Hsum Hfmt]]]]]].
  destruct (tally_all_closed results' Hvalid' initial_stats 0 0 0 eq_refl)
    as [st' [Hrun' [Ha' [Hui' [Htot' [Hsum' Hfmt']]]]]].
  exists st, st'. split; [exact Hrun |]. split; [exact Hrun' |].
  split.
  { rewrite Ha, Ha'.
    now rewrite !(count_reports_permutation _ _ _ Hperm). }
  split.
  { rewrite Hui, Hui'. now rewrite (count_reports_permutation _ _ _ Hperm). }
  split.
  { rewrite Htot, Htot'. now rewrite (sum_sizes_permutation _ _ Hperm). }
  split.
  { rewrite Hsum, Hsum'.
    now rewrite (count_reports_permutation _ _ _ Hperm). }
  intros k. rewrite Hfmt, Hfmt'. cbn zeta.
  now rewrite (count_reports_permutation _ _ _ Hperm).
Qed.

End TallyProperties.

(* ------------------------------------------------------------------ *)
(** ** The candidate generator, further *)

Section GeneratorProperties.
Import Analysis Optimizer.

(** X19.  The generator returns no candidate at all exactly when
    transparency is not ignored and the fidelity is none of [none],
    [binary], [partial].  A palette candidate is only ever generated for
    an image that is not a UI asset and whose effective fidelity is not
    [partial], and it carries 256 or 128 colours; every other candidate is
    RGB or RGBA with no palette size; no candidate is listed twice. *)
Theorem generate_candidates_palette_safety (a : ImageAnalysis) (ign : bool) :
  (generate_candidates a ign = [] <->
   ign = false /\ ~ In (alpha_type a) ["none"; "binary"; "partial"])
  /\ (forall c, In c (generate_candidates a ign) ->
        (fst c = "P" /\ (snd c = Some 256%Z \/ snd c = Some 128%Z) /\
         is_ui a = false /\
         (ign = true \/ alpha_type a = "none" \/ alpha_type a = "binary"))
        \/ ((fst c = "RGB" \/ fst c = "RGBA") /\ snd c = None))
  /\ NoDup (generate_candidates a ign).
Proof.
  unfold generate_candidates.
  destruct ign.
  - cbn [String.eqb Ascii.eqb Bool.eqb].
    split; [split; [destruct (is_ui a); discriminate | intros [H _];
                    discriminate] |].
    split.
    + intros c. destruct (is_ui a) eqn:Hui; simpl;
        intuition (subst; simpl; auto 10).
    + destruct (is_ui a); simpl; repeat constructor; simpl;
        intuition discriminate.
  - destruct (alpha_type a =? "none") eqn:H1.
    { apply String.eqb_eq in H1.
      split; [split; [destruct (is_ui a); discriminate |
                      intros [_ H]; exfalso; apply H; rewrite H1;
                      simpl; auto] |].
      split.
      + intros c. destruct (is_ui a) eqn:Hui; simpl;
          intuition (subst; simpl; auto 10).
      + destruct (is_ui a); simpl; repeat constructor; simpl;
          intuition discriminate. }
    destruct (alpha_type a =? "binary") eqn:H2.
    { apply String.eqb_eq in H2.
      split; [split; [destruct (is_ui a); discriminate |
                      intros [_ H]; exfalso; apply H; rewrite H2;
                      simpl; auto] |].
      split.
      + intros c. destruct (is_ui a) eqn:Hui; simpl;
          intuition (subst; simpl; auto 10).
      + destruct (is_ui a); simpl; repeat constructor; simpl;
          intuition discriminate. }
    destruct (alpha_type a =? "partial") eqn:H3.
    { apply String.eqb_eq in H3.
      split; [split; [discriminate |
                      intros [_ H]; exfalso; apply H; rewrite H3;
                      simpl; auto] |].
      split.
      + intros c. simpl. intuition (subst; simpl; auto 10).
      + repeat constructor. simpl. intuition. }
    apply String.eqb_neq in H1, H2, H3.
    split; [split; [intros _; split; [reflexivity |];
                    intros [H | [H | [H | []]]]; congruence
                   | reflexivity] |].
    split; [intros c [] | constructor].
Qed.

End GeneratorProperties.

(* ------------------------------------------------------------------ *)
(** ** Further worked instances *)

Section FurtherInstances.
Import Analysis Optimizer Worker RawLibrary.

Example get_unique_path_sample :
  get_unique_path sample_files PosixPath.splitext 5 "out/a.png"
  = Some "out/a_2.png".
Proof. reflexivity. Qed.

Lemma get_unique_path_first_free_witness :
  sample_files "out/a_2.png" = false /\
  ((sample_files "out/a.png" = false /\ "out/a_2.png" = "out/a.png") \/
   (sample_files "out/a.png" = true /\
    exists k,
      (1 <= k)%Z /\
      "out/a_2.png"
      = numbered (fst (PosixPath.splitext "out/a.png"))
                 (snd (PosixPath.splitext "out/a.png")) k /\
      forall j, (1 <= j < k)%Z ->
        sample_files
          (numbered (fst (PosixPath.splitext "out/a.png"))
                    (snd (PosixPath.splitext "out/a.png")) j)
        = true)).
Proof.
  exact (get_unique_path_first_free sample_files PosixPath.splitext 5
           "out/a.png" "out/a_2.png" eq_refl).
Defined.

Lemma get_unique_path_terminates_witness :
  exists p,
    get_unique_path sample_files PosixPath.splitext 5 "out/a.png" = Some p /\
    get_unique_path sample_files PosixPath.splitext 5 p = Some p.
Proof.
  apply (get_unique_path_terminates sample_files PosixPath.splitext 5
           "out/a.png" 2).
  - lia.
  - reflexivity.
  - simpl. lia.
Defined.

Lemma analyze_image_transparency_witness :
  exists b,
    alpha_channel sprite = Some b /\
    (has_transparency sprite_analysis = true <->
     exists v, In v (band_values b) /\ (v < 255)%nat) /\
    (alpha_type sprite_analysis = "none" <->
     has_transparency sprite_analysis = false) /\
    (has_transparency sprite_analysis = true ->
     alpha_type sprite_analysis = "binary" \/
     alpha_type sprite_analysis = "partial").
Proof.
  exact (analyze_image_transparency sprite "textures/items/apple.png"
           sprite_analysis eq_refl).
Defined.

Lemma active_algo_auto_witness :
  In (PyStr.lower (suggested_algorithm sprite_analysis))
     (map fst Resize.algo_map) /\
  Resize.active_algo sprite "textures/items/apple.png" "auto"
  = Some (if suggested_algorithm sprite_analysis =? "LANCZOS"
          then Resize.LANCZOS else Resize.NEAREST) /\
  (is_ui sprite_analysis = true \/ alpha_type sprite_analysis = "binary" ->
   Resize.active_algo sprite "textures/items/apple.png" "auto"
   = Some Resize.NEAREST).
Proof.
  exact (active_algo_auto sprite "textures/items/apple.png"
           sprite_analysis eq_refl).
Defined.

Lemma save_candidate_buffer_unknown_mode_witness :
  save_candidate_buffer sprite "rgba" None 9 "PNG" = None.
Proof.
  apply save_candidate_buffer_unknown_mode.
  intros [H | [H | [H | []]]]; discriminate H.
Defined.

Lemma output_image_mode_witness :
  let out := {| img_mode := "P"; img_raster := img_raster sprite |} in
  In "P" ["RGB"; "RGBA"; "P"] /\
  img_mode out = (if is_jpeg "PNG" && ("P" =? "RGBA") then "RGB" else "P") /\
  ("P" = "P" ->
   exists rgba,
     (if img_mode sprite =? "RGBA" then rgba = sprite
      else convert sprite "RGBA" = Some rgba) /\
     img_mode rgba = "RGBA" /\ quantize rgba 256 = Some out).
Proof.
  exact (output_image_mode sprite
           {| img_mode := "P"; img_raster := img_raster sprite |}
           "P" None "PNG" eq_refl).
Defined.

Lemma smart_optimize_outcomes_witness :
  "P-256" <> "Original" /\
  ((exists b s,
       Some (repeat x00 3) = Some b /\ PInt 3 = PInt s /\
       int_lt s float_inf = true /\
       In "P-256" ["RGB"; "RGBA"; "P-256"; "P-128"])
   \/ (exists b n,
         Some (repeat x00 3) = Some b /\ PInt 3 = float_of_int n /\
         int_lt n float_inf = false /\
         In "P-256" ["RGB (Fallback)"; "RGBA (Fallback)"])
   \/ (Some (repeat x00 3) = None /\ PInt 3 = float_inf /\
       In "P-256" ["RGB (Fallback)"; "RGBA (Fallback)"])).
Proof.
  exact (smart_optimize_outcomes sprite "textures/items/apple.png" float_inf
           9 "PNG" false (Some (repeat x00 3)) "P-256" (PInt 3) eq_refl).
Defined.

Lemma smart_optimize_unbounded_witness :
  ((forall c, In c (generate_candidates sprite_analysis false) ->
              encode sprite 9 "TXT" c = None) <->
   exists label,
     smart_optimize sprite "textures/items/apple.png" float_inf 9 "TXT" false
     = Some (None, label, float_inf))
  /\
  ((exists c, In c (generate_candidates sprite_analysis false) /\
              encode sprite 9 "TXT" c <> None) <->
   exists c b s,
     In c (generate_candidates sprite_analysis false) /\
     encode sprite 9 "TXT" c = Some (b, s) /\
     smart_optimize sprite "textures/items/apple.png" float_inf 9 "TXT" false
     = Some (Some b, candidate_label c, PInt s)).
Proof.
  exact (smart_optimize_unbounded sprite "textures/items/apple.png" 9 "TXT"
           false sprite_analysis eq_refl).
Defined.

Example output_image_of_gray :
  let gray := image "I;16" red [red] in
  quantize gray 256 = None /\
  output_image gray "P" None "PNG"
  = Some {| img_mode := "P"; img_raster := img_raster gray |}.
Proof. split; reflexivity. Qed.

Example smart_optimize_gray :
  let gray := image "I;16" red [red] in
  smart_optimize gray "textures/blocks/stone.png" float_inf 9 "PNG" false
  = None /\
  smart_optimize gray "textures/gui/stone.png" float_inf 9 "PNG" false
  = Some (Some (repeat x00 6), "RGB", PInt 6).
Proof. split; reflexivity. Qed.

Example manual_strategy_palette :
  manual_strategy sprite "palette" 9 "png" false
  = Some {| action := WriteBuffer (repeat x00 3); final_mode := "P";
            new_size := 3 |}.
Proof. reflexivity. Qed.

Example manual_strategy_ignoring :
  manual_strategy sprite "palette" 9 "png" true
  = Some {| action := WriteBuffer (repeat x00 9); final_mode := "RGB";
            new_size := 9 |}.
Proof. reflexivity. Qed.

Example manual_strategy_unknown_format :
  manual_strategy sprite "palette" 9 "TXT" false
  = Some {| action := NoFile; final_mode := "Error"; new_size := 0 |}.
Proof. reflexivity. Qed.

Example auto_strategy_sprite :
  auto_strategy sprite "textures/items/apple.png" 100 false 9 "png" false
  = Some {| action := WriteBuffer (repeat x00 3); final_mode := "P-256";
            new_size := 3 |}.
Proof. reflexivity. Qed.

Example auto_strategy_sprite_small_original :
  auto_strategy sprite "textures/items/apple.png" 2 false 9 "png" false
  = Some {| action := CopyOriginal; final_mode := "Original (Skipped)";
            new_size := 2 |}.
Proof. reflexivity. Qed.

Example auto_strategy_unknown_format_raises :
  auto_strategy sprite "textures/items/apple.png" 2 true 9 "TXT" false = None.
Proof. reflexivity. Qed.

Lemma auto_strategy_reports_witness :
  let o := {| action := WriteBuffer (repeat x00 3); final_mode := "P-256";
              new_size := 3 |} in
  (exists buf,
      action o = WriteBuffer buf /\
      In (final_mode o) ["RGB"; "RGBA"; "P-256"; "P-128"] /\
      smart_optimize sprite "textures/items/apple.png"
        (if negb false && (PyStr.upper "png" =? "PNG")
         then float_of_int 100 else float_inf)
        9 "png" false
      = Some (Some buf, final_mode o, PInt (new_size o)) /\
      (negb false && (PyStr.upper "png" =? "PNG") = true ->
       (new_size o < 100)%Z))
  \/ (action o = CopyOriginal /\ final_mode o = "Original (Skipped)" /\
      new_size o = 100%Z /\
      negb false && (PyStr.upper "png" =? "PNG") = true).
Proof.
  exact (auto_strategy_reports sprite "textures/items/apple.png" 100 false
           9 "png" false
           {| action := WriteBuffer (repeat x00 3); final_mode := "P-256";
              new_size := 3 |} eq_refl).
Defined.

Lemma tally_all_order_independent_witness :
  let results := [Some report_png; None; Some report_tga] in
  let results' := [None; Some report_tga; Some report_png] in
  exists st st',
    Report.tally_all Report.initial_stats results = Some st /\
    Report.tally_all Report.initial_stats results' = Some st' /\
    Report.alpha_types st' = Report.alpha_types st /\
    Report.ui_textures st' = Report.ui_textures st /\
    Report.total_size st' = Report.total_size st /\
    dict_total (Report.formats st') = dict_total (Report.formats st) /\
    forall k,
      Report.dict_get Report.format_eqb (Report.formats st') k
      = Report.dict_get Report.format_eqb (Report.formats st) k.
Proof.
  cbv zeta.
  apply (tally_all_order_independent
           [Some report_png; None; Some report_tga]
           [None; Some report_tga; Some report_png]).
  - apply perm_trans with [None; Some report_png; Some report_tga].
    + apply perm_swap.
    + apply perm_skip, perm_swap.
  - intros r [[= <-] | [H | [[= <-] | []]]]; [| discriminate H |];
      simpl; auto.
Defined.

Example tally_sample :
  Report.tally_all Report.initial_stats
    [Some report_png; None; Some report_tga]
  = Some {| Report.formats := [(Some "PNG", 1%Z); (None, 1%Z)];
            Report.alpha_types :=
              [("none", 1%Z); ("binary", 1%Z); ("partial", 0%Z)];
            Report.ui_textures := 1%Z;
            Report.total_size := 420%Z |}.
Proof. reflexivity. Qed.

End FurtherInstances.
